(** * Live transcoding of stash: pkg/ffmpeg/stream_transcode.go

    A shallow embedding of the argument builders ([CodecInit], the three
    [StreamFormat]s, [FileGetCodec], [makeStreamArgs]) and of the serving
    path ([ServeTranscode], [getTranscodeStream]) together with the
    properties the specification states about them.

    Go strings are [string], [Args] is a slice of strings, Go [int] is [Z],
    [float64] is a primitive binary64 float.  Calls that reach the outside
    world (the logger, the HTTP response writer, the ffmpeg process, the lock
    context) are recorded, in program order, in a trace of events. *)

From Stdlib Require Import String List ZArith Bool Lia.
From Stdlib Require Import Floats.PrimFloat.
Import ListNotations.

Open Scope string_scope.
Open Scope list_scope.

(* ================================================================= *)
(** ** Argument vocabulary (pkg/ffmpeg/options.go, codec.go)          *)
(* ================================================================= *)

Definition Args := list string.

Definition VideoCodec := string.
Definition AudioCodec := string.
Definition VideoFilter := string.
Definition Format := string.
Definition LogLevel := string.

(** Modelled from the spec: the values of the codec table (codec.go and
    codec_hardware.go are not among the sources).  A codec is the name
    ffmpeg knows it by; the zero value is the empty string. *)
Definition VideoCodecLibX264 : VideoCodec := "libx264".
Definition VideoCodecVP9 : VideoCodec := "libvpx-vp9".
Definition VideoCodecCopy : VideoCodec := "copy".
Definition VideoCodecN264 : VideoCodec := "h264_nvenc".
Definition VideoCodecI264 : VideoCodec := "h264_qsv".
Definition VideoCodecV264 : VideoCodec := "h264_vaapi".
Definition VideoCodecA264 : VideoCodec := "h264_amf".
Definition VideoCodecM264 : VideoCodec := "h264_videotoolbox".
Definition VideoCodecO264 : VideoCodec := "h264_omx".
Definition VideoCodecIVP9 : VideoCodec := "vp9_qsv".
Definition VideoCodecVVP9 : VideoCodec := "vp9_vaapi".

Definition AudioCodecLibOpus : AudioCodec := "libopus".

Definition FormatMP4 : Format := "mp4".
Definition FormatWebm : Format := "webm".
Definition FormatMatroska : Format := "matroska".

Definition LogLevelError : LogLevel := "error".

(** Modelled from the spec: the MIME types of the three containers
    (stream.go is not among the sources). *)
Definition MimeMp4Video : string := "video/mp4".
Definition MimeWebmVideo : string := "video/webm".
Definition MimeMkvVideo : string := "video/x-matroska".

(** Modelled from the spec: the typed builders of the argument vocabulary
    (options.go is not among the sources).  Each builder appends the flag
    of its value to the slice; an empty value contributes nothing, so an
    empty filter means no transform. *)
Definition VideoCodec_Args (c : VideoCodec) : list string :=
  if c =? "" then [] else ["-c:v"; c].

Definition AudioCodec_Args (c : AudioCodec) : list string :=
  if c =? "" then [] else ["-c:a"; c].

Definition VideoFilter_Args (f : VideoFilter) : list string :=
  if f =? "" then [] else ["-vf"; f].

Definition Format_Args (f : Format) : list string :=
  if f =? "" then [] else ["-f"; f].

Definition LogLevel_Args (l : LogLevel) : list string :=
  if l =? "" then [] else ["-v"; l].

Definition Args_VideoCodec (a : Args) (c : VideoCodec) : Args :=
  a ++ VideoCodec_Args c.

Definition Args_AudioCodec (a : Args) (c : AudioCodec) : Args :=
  a ++ AudioCodec_Args c.

Definition Args_VideoFilter (a : Args) (vf : VideoFilter) : Args :=
  a ++ VideoFilter_Args vf.

Definition Args_SkipAudio (a : Args) : Args := a ++ ["-an"].

Definition Args_Format (a : Args) (f : Format) : Args := a ++ Format_Args f.

Definition Args_LogLevel (a : Args) (l : LogLevel) : Args :=
  if l =? "" then a else a ++ LogLevel_Args l.

Definition Args_Input (a : Args) (i : string) : Args := a ++ ["-i"; i].

Definition Args_Output (a : Args) (o : string) : Args := a ++ [o].

(* ================================================================= *)
(** ** Codec and format catalog (stream_transcode.go, lines 16-132)    *)
(* ================================================================= *)

(** The field [Args] of the Go struct is [ArgsFunc] here, [Args] being the
    slice type. *)
Record StreamFormat := {
  MimeType : string;
  ArgsFunc : VideoCodec -> VideoFilter -> bool -> Args
}.

(** The [switch] compares the codec with each case in turn; a codec that
    matches none of them (the copy codec, among others) gets the codec
    flag alone. *)
Definition CodecInit (codec : VideoCodec) : Args :=
  let args := Args_VideoCodec [] codec in
  if codec =? VideoCodecLibX264 then
    args ++ ["-pix_fmt"; "yuv420p"; "-preset"; "veryfast"; "-crf"; "25";
             "-sc_threshold"; "0"]
  else if codec =? VideoCodecVP9 then
    args ++ ["-pix_fmt"; "yuv420p"; "-deadline"; "realtime"; "-cpu-used"; "5";
             "-row-mt"; "1"; "-crf"; "30"; "-b:v"; "0"]
  else if codec =? VideoCodecN264 then
    args ++ ["-rc"; "vbr"; "-cq"; "15"]
  else if codec =? VideoCodecI264 then
    args ++ ["-global_quality"; "20"; "-preset"; "faster"]
  else if codec =? VideoCodecV264 then
    args ++ ["-qp"; "20"]
  else if codec =? VideoCodecA264 then
    args ++ ["-quality"; "speed"]
  else if codec =? VideoCodecM264 then
    args ++ ["-prio_speed"; "1"]
  else if codec =? VideoCodecO264 then
    args ++ ["-preset"; "superfast"; "-crf"; "25"]
  else if codec =? VideoCodecIVP9 then
    args ++ ["-global_quality"; "20"; "-preset"; "faster"]
  else if codec =? VideoCodecVVP9 then
    args ++ ["-qp"; "20"]
  else args.

Definition StreamTypeMP4 : StreamFormat := {|
  MimeType := MimeMp4Video;
  ArgsFunc := fun codec videoFilter videoOnly =>
    let args := CodecInit codec in
    let args := args ++ ["-movflags"; "frag_keyframe+empty_moov"] in
    let args := Args_VideoFilter args videoFilter in
    let args := if videoOnly then Args_SkipAudio args
                else args ++ ["-ac"; "2"] in
    Args_Format args FormatMP4
|}.

Definition StreamTypeWEBM : StreamFormat := {|
  MimeType := MimeWebmVideo;
  ArgsFunc := fun codec videoFilter videoOnly =>
    let args := CodecInit codec in
    let args := Args_VideoFilter args videoFilter in
    let args := if videoOnly then Args_SkipAudio args
                else args ++ ["-ac"; "2"] in
    Args_Format args FormatWebm
|}.

(** The Matroska recipe takes the filter and does not use it. *)
Definition StreamTypeMKV : StreamFormat := {|
  MimeType := MimeMkvVideo;
  ArgsFunc := fun codec (videoFilter : VideoFilter) videoOnly =>
    let args := CodecInit codec in
    let args := if videoOnly then Args_SkipAudio args
                else Args_AudioCodec args AudioCodecLibOpus
                       ++ ["-b:a"; "96k"; "-vbr"; "on"; "-ac"; "2"] in
    Args_Format args FormatMatroska
|}.

(* ================================================================= *)
(** ** Collaborators of the stream manager                            *)
(* ================================================================= *)

(** The configuration provider, as far as this file reads it. *)
Record Config := {
  GetTranscodeHardwareAcceleration : bool;
  GetMaxStreamingTranscodeSize : string;
  GetLiveTranscodeInputArgs : list string;
  GetLiveTranscodeOutputArgs : list string
}.

(** The encoder ([*FFMpeg]): the answers of its hardware probe, and the
    hardware specific builders, which codec_hardware.go defines. *)
Record FFMpeg := {
  ffmpegPath : string;
  hwCodecMP4Compatible : option VideoCodec;
  hwCodecWEBMCompatible : option VideoCodec;
  hwDeviceInit : Args -> VideoCodec -> Args;
  hwMaxResFilter : VideoCodec -> Z -> Z -> Z -> VideoFilter
}.

Record StreamManager := {
  encoder : FFMpeg;
  config : Config
}.

(** [models.VideoFile], the fields read here; its field [AudioCodec] is
    [AudioCodecName], [AudioCodec] being the type of the audio codecs. *)
Record VideoFile := {
  Path : string;
  Width : Z;
  Height : Z;
  AudioCodecName : string
}.

(** The field [VideoFile] of the Go struct is [File] here. *)
Record TranscodeOptions := {
  StreamType : StreamFormat;
  File : VideoFile;
  Resolution : string;
  StartTime : float
}.

(** lines 141-158 *)
Definition FileGetCodec (sm : StreamManager) (mimetype : string) : VideoCodec :=
  if mimetype =? MimeMp4Video then
    match hwCodecMP4Compatible (encoder sm) with
    | Some hwcodec =>
        if GetTranscodeHardwareAcceleration (config sm) then hwcodec
        else VideoCodecLibX264
    | None => VideoCodecLibX264
    end
  else if mimetype =? MimeWebmVideo then
    match hwCodecWEBMCompatible (encoder sm) with
    | Some hwcodec =>
        if GetTranscodeHardwareAcceleration (config sm) then hwcodec
        else VideoCodecVP9
    | None => VideoCodecVP9
    end
  else if mimetype =? MimeMkvVideo then VideoCodecCopy
  else "".

(* ================================================================= *)
(** ** Errors                                                         *)
(* ================================================================= *)

(** Go error values, as far as this file tells them apart: a plain error
    ([errors.New] and the like), a [syscall.Errno], the [*exec.ExitError]
    that [cmd.Wait] returns for an unsuccessful exit, and an error that
    wraps another one ([*fs.PathError], [*net.OpError], ...). *)
Inductive error : Type :=
| ErrNew (text : string)
| ErrErrno (errno : Z) (text : string)
| ErrExit (state : string)
| ErrWrap (op : string) (inner : error).

Definition errors_New (text : string) : error := ErrNew text.

(** [err.Error()] *)
Fixpoint Error (e : error) : string :=
  match e with
  | ErrNew t => t
  | ErrErrno _ t => t
  | ErrExit st => st
  | ErrWrap op inner => op ++ ": " ++ Error inner
  end.

(** [syscall.EPIPE] on Linux. *)
Definition EPIPE : Z := 32.

(** [errors.Is(err, syscall.Errno(target))]: some error of the chain is
    that errno. *)
Fixpoint errors_Is_errno (e : error) (target : Z) : bool :=
  match e with
  | ErrErrno n _ => (n =? target)%Z
  | ErrWrap _ inner => errors_Is_errno inner target
  | _ => false
  end.

(** [errors.As(err, &exitError)] with [exitError : *exec.ExitError]. *)
Fixpoint errors_As_ExitError (e : error) : bool :=
  match e with
  | ErrExit _ => true
  | ErrWrap _ inner => errors_As_ExitError inner
  | _ => false
  end.

(* ================================================================= *)
(** ** Effects: the trace of calls that leave the package             *)
(* ================================================================= *)

Inductive Level : Type := LevelError | LevelWarn.

Set Warnings "-register-all".

(** [*exec.Cmd]: [Args] holds the program followed by its arguments. *)
Record Cmd := { CmdArgs : list string }.

Inductive Event : Type :=
| EvReadLock (path : string)          (* lockManager.ReadLock(ctx, path) *)
| EvStdoutPipe                        (* cmd.StdoutPipe() *)
| EvStderrPipe                        (* cmd.StderrPipe() *)
| EvStart                             (* cmd.Start() *)
| EvAttachCommand (cmd : Cmd)         (* ctx.AttachCommand(cmd) *)
| EvGo (body : list Event)            (* go func() { body }() *)
| EvReadAllStderr                     (* io.ReadAll(stderr) *)
| EvWait                              (* cmd.Wait() *)
| EvLog (lvl : Level) (msg : string)  (* logger.Errorf / logger.Warnf *)
| EvHeaderSet (key value : string)    (* w.Header().Set(key, value) *)
| EvWriteHeader (status : Z)          (* w.WriteHeader(status) *)
| EvWrite (data : string)             (* w.Write(data) *)
| EvFlush.                            (* w.(http.Flusher).Flush() *)

Definition StatusOK : Z := 200.
Definition StatusBadRequest : Z := 400.

(** A computation returns a value and the calls it made, in order. *)
Definition M (A : Type) : Type := (A * list Event)%type.

Definition ret {A} (a : A) : M A := (a, []).

Definition bind {A B} (m : M A) (k : A -> M B) : M B :=
  let (a, t1) := m in
  let (b, t2) := k a in
  (b, t1 ++ t2).

Definition emit (e : Event) : M unit := (tt, [e]).

Definition trace {A} (m : M A) : list Event := snd m.

Declare Scope go_scope.
Delimit Scope go_scope with go.
Notation "x <- m ;; k" := (bind m (fun x => k))
  (at level 100, m at next level, right associativity) : go_scope.
Notation "m ;; k" := (bind m (fun _ => k))
  (at level 100, right associativity) : go_scope.

(** What the outside world answers during one request: the results of
    the three steps that start ffmpeg, what it writes on its standard
    error and how it ends, and the chunks that successive reads of its
    standard output return, ended by end of file ([None]) or by a read
    error. *)
Record Process := {
  stdoutPipeErr : option error;
  stderrPipeErr : option error;
  startErr : option error;
  stderrText : string;
  waitErr : option error;
  stdoutChunks : list string;
  stdoutErr : option error
}.

(** The client side of the response: whether the n-th [Write] (counted
    from 0) on the response writer fails, and with what. *)
Record Client := { writeErr : nat -> option error }.

(** [io.Copy(w, stdout)]: every chunk read is written as it arrives; the
    first failing write, or else the read error that ended the stream,
    is the result.  A read that returns no bytes is not written. *)
Fixpoint io_Copy (c : Client) (n : nat) (chunks : list string)
         (rdErr : option error) : M (option error) :=
  match chunks with
  | [] => ret rdErr
  | chunk :: rest =>
      if chunk =? "" then io_Copy c n rest rdErr
      else
        match writeErr c n with
        | Some ew => (_ <- emit (EvWrite chunk) ;; ret (Some ew))%go
        | None => (_ <- emit (EvWrite chunk) ;; io_Copy c (S n) rest rdErr)%go
        end
  end.

(** Modelled from the spec: [FFMpeg.Command] (ffmpeg.go is not among the
    sources) makes the command that runs the encoder binary on the
    arguments. *)
Definition Command (f : FFMpeg) (args : Args) : Cmd :=
  {| CmdArgs := ffmpegPath f :: args |}.

(** [strings.Join(elems, sep)] *)
Definition strings_Join (elems : list string) (sep : string) : string :=
  String.concat sep elems.

(* ================================================================= *)
(** ** Building the arguments and serving (lines 160-276)             *)
(* ================================================================= *)

Section Transcode.

(** Declarations of other packages that the code below calls:
    [models.StreamingResolutionEnum.GetMaxResolution], the audio codec
    status [ProbeAudioCodec(...)] with its value [MissingUnsupported],
    and [fmt.Sprint] on a [float64]. *)
Variable GetMaxResolution : string -> Z.
Variable ProbeAudioCodec : string -> string.
Variable MissingUnsupported : string.
Variable fmt_Sprint : float -> string.

(** Modelled from the spec: the seek builder of the argument
    vocabulary (options.go is not among the sources). *)
Definition Args_Seek (a : Args) (seconds : float) : Args :=
  a ++ ["-ss"; fmt_Sprint seconds].

(** The local [maxTranscodeSize] of [makeStreamArgs] (lines 161-164). *)
Definition maxTranscodeSize (sm : StreamManager) (o : TranscodeOptions) : Z :=
  let maxTranscodeSize :=
    GetMaxResolution (GetMaxStreamingTranscodeSize (config sm)) in
  if negb (Resolution o =? "") then GetMaxResolution (Resolution o)
  else maxTranscodeSize.

(** The local [videoOnly] of [makeStreamArgs] (line 182). *)
Definition videoOnly (o : TranscodeOptions) : bool :=
  ProbeAudioCodec (AudioCodecName (File o)) =? MissingUnsupported.

(** The local [videoFilter] of [makeStreamArgs] (line 184). *)
Definition videoFilter (sm : StreamManager) (o : TranscodeOptions)
  : VideoFilter :=
  hwMaxResFilter (encoder sm) (FileGetCodec sm (MimeType (StreamType o)))
    (Width (File o)) (Height (File o)) (maxTranscodeSize sm o).

Definition makeStreamArgs (sm : StreamManager) (o : TranscodeOptions) : Args :=
  let extraInputArgs := GetLiveTranscodeInputArgs (config sm) in
  let extraOutputArgs := GetLiveTranscodeOutputArgs (config sm) in
  let args := ["-hide_banner"] in
  let args := Args_LogLevel args LogLevelError in
  let codec := FileGetCodec sm (MimeType (StreamType o)) in
  let args := hwDeviceInit (encoder sm) args codec in
  let args := args ++ extraInputArgs in
  let args := if negb (PrimFloat.eqb (StartTime o) 0%float)
              then Args_Seek args (StartTime o) else args in
  let args := Args_Input args (Path (File o)) in
  let args := args ++ ArgsFunc (StreamType o) codec (videoFilter sm o)
                        (videoOnly o) in
  let args := args ++ extraOutputArgs in
  Args_Output args "pipe:".

Local Open Scope go_scope.

(** The goroutine that consumes the standard error of ffmpeg
    (lines 239-258). *)
Definition stderrDrain (p : Process) (cmd : Cmd) : M unit :=
  emit EvReadAllStderr ;;
  emit EvWait ;;
  let errCmd := waitErr p in
  let e := stderrText p in
  let err := if negb (e =? "") then Some (errors_New e) else errCmd in
  match err with
  | Some err' =>
      if negb (errors_As_ExitError err') then
        emit (EvLog LevelError
                ("[transcode] ffmpeg error when running command <"
                 ++ strings_Join (CmdArgs cmd) " " ++ ">: " ++ Error err'))
      else ret tt
  | None => ret tt
  end.

(** The handler that [getTranscodeStream] returns (lines 261-274). *)
Definition handler (mimeType : string) (p : Process) (w : Client) : M unit :=
  emit (EvHeaderSet "Cache-Control" "no-store") ;;
  emit (EvHeaderSet "Content-Type" mimeType) ;;
  emit (EvWriteHeader StatusOK) ;;
  err <- io_Copy w 0 (stdoutChunks p) (stdoutErr p) ;;
  match err with
  | Some err' =>
      if negb (errors_Is_errno err' EPIPE) then
        emit (EvLog LevelError
                ("[transcode] error serving transcoded video file: "
                 ++ Error err'))
      else ret tt
  | None => ret tt
  end ;;
  emit EvFlush.

(** lines 217-276; the result is the handler or the error. *)
Definition getTranscodeStream (sm : StreamManager) (p : Process)
           (options : TranscodeOptions) : M ((Client -> M unit) + error) :=
  let args := makeStreamArgs sm options in
  let cmd := Command (encoder sm) args in
  emit EvStdoutPipe ;;
  match stdoutPipeErr p with
  | Some err =>
      emit (EvLog LevelError
              ("[transcode] ffmpeg stdout not available: " ++ Error err)) ;;
      ret (inr err)
  | None =>
      emit EvStderrPipe ;;
      match stderrPipeErr p with
      | Some err =>
          emit (EvLog LevelError
                  ("[transcode] ffmpeg stderr not available: " ++ Error err)) ;;
          ret (inr err)
      | None =>
          emit EvStart ;;
          match startErr p with
          | Some err => ret (inr err)
          | None =>
              emit (EvAttachCommand cmd) ;;
              emit (EvGo (trace (stderrDrain p cmd))) ;;
              let mimeType := MimeType (StreamType options) in
              ret (inl (handler mimeType p))
          end
      end
  end.

(** lines 195-215 *)
Definition ServeTranscode (sm : StreamManager) (p : Process) (w : Client)
           (options : TranscodeOptions) : M unit :=
  emit (EvReadLock (Path (File options))) ;;
  r <- getTranscodeStream sm p options ;;
  match r with
  | inr err =>
      emit (EvLog LevelError
              ("[transcode] error transcoding video file: " ++ Error err)) ;;
      emit (EvWriteHeader StatusBadRequest) ;;
      emit (EvWrite (Error err)) ;;
      match writeErr w 0 with
      | Some err' =>
          emit (EvLog LevelWarn
                  ("[transcode] error writing response: " ++ Error err'))
      | None => ret tt
      end
  | inl h => h w
  end.

End Transcode.

(* ================================================================= *)
(** ** Reading a trace                                                *)
(* ================================================================= *)

(** The calls on the response writer. *)
Definition isResponse (e : Event) : bool :=
  match e with
  | EvHeaderSet _ _ | EvWriteHeader _ | EvWrite _ | EvFlush => true
  | _ => false
  end.

Definition response (t : list Event) : list Event := filter isResponse t.

(** The messages handed to the logger. *)
Fixpoint logged (t : list Event) : list (Level * string) :=
  match t with
  | [] => []
  | EvLog l m :: t' => (l, m) :: logged t'
  | _ :: t' => logged t'
  end.

(** The commands attached to the lock context of the request. *)
Fixpoint attached (t : list Event) : list Cmd :=
  match t with
  | [] => []
  | EvAttachCommand c :: t' => c :: attached t'
  | _ :: t' => attached t'
  end.

(** The bodies written to the response, in order. *)
Fixpoint written (t : list Event) : list string :=
  match t with
  | [] => []
  | EvWrite d :: t' => d :: written t'
  | _ :: t' => written t'
  end.

(** The trace without what the spawned goroutines do. *)
Definition foreground (t : list Event) : list Event :=
  filter (fun e => match e with EvGo _ => false | _ => true end) t.


(* ================================================================= *)
(** ** Sample collaborators, for the examples                         *)
(* ================================================================= *)

Module Sample.

(** A resolution table in the manner of
    [StreamingResolutionEnum.GetMaxResolution]. *)
Definition GetMaxResolution (e : string) : Z :=
  if e =? "LOW" then 240
  else if e =? "STANDARD" then 480
  else if e =? "STANDARD_HD" then 720
  else if e =? "FULL_HD" then 1080
  else if e =? "FOUR_K" then 2160
  else 0.

Definition ProbeAudioCodec (s : string) : string := s.
Definition MissingUnsupported : string := "".
Definition fmt_Sprint (f : float) : string :=
  if PrimFloat.eqb f 30%float then "30" else "0".

(** Scale down to the cap when the height exceeds it. *)
Definition capFilter (c : VideoCodec) (w h cap : Z) : VideoFilter :=
  if ((0 <? cap) && (cap <? h))%Z then
    if (cap =? 1080)%Z then "scale=-2:1080" else "scale=-2:240"
  else "".

Definition software : FFMpeg := {|
  ffmpegPath := "ffmpeg";
  hwCodecMP4Compatible := None;
  hwCodecWEBMCompatible := None;
  hwDeviceInit := fun a _ => a;
  hwMaxResFilter := capFilter
|}.

Definition nvidia : FFMpeg := {|
  ffmpegPath := "ffmpeg";
  hwCodecMP4Compatible := Some VideoCodecN264;
  hwCodecWEBMCompatible := None;
  hwDeviceInit := fun a _ => a;
  hwMaxResFilter := capFilter
|}.

Definition cfg (hw : bool) (size : string) : Config := {|
  GetTranscodeHardwareAcceleration := hw;
  GetMaxStreamingTranscodeSize := size;
  GetLiveTranscodeInputArgs := [];
  GetLiveTranscodeOutputArgs := []
|}.

Definition sm (enc : FFMpeg) (hw : bool) (size : string) : StreamManager :=
  {| encoder := enc; config := cfg hw size |}.

Definition file4k (audio : string) : VideoFile :=
  {| Path := "/media/a.mkv"; Width := 3840; Height := 2160;
     AudioCodecName := audio |}.

Definition opts (f : StreamFormat) (audio res : string) : TranscodeOptions :=
  {| StreamType := f; File := file4k audio; Resolution := res;
     StartTime := 0%float |}.

Definition noWriteErr : Client := {| writeErr := fun _ => None |}.

(** The client goes away after the first chunk: the second write
    fails with a broken pipe. *)
Definition disconnects : Client := {|
  writeErr := fun n =>
    if (n =? 1)%nat
    then Some (ErrWrap "write tcp" (ErrErrno EPIPE "broken pipe"))
    else None
|}.

(** The second write fails with a timeout instead. *)
Definition timesOut : Client := {|
  writeErr := fun n =>
    if (n =? 1)%nat then Some (ErrWrap "write tcp" (ErrNew "i/o timeout"))
    else None
|}.

(** ffmpeg starts, produces two chunks and is killed without having
    written anything on its standard error. *)
Definition killedQuiet : Process := {|
  stdoutPipeErr := None; stderrPipeErr := None; startErr := None;
  stderrText := "";
  waitErr := Some (ErrExit "signal: killed");
  stdoutChunks := ["ab"; "cd"];
  stdoutErr := None
|}.

(** The same, but ffmpeg had reported a damaged frame before it was
    killed. *)
Definition killedNoisy : Process := {|
  stdoutPipeErr := None; stderrPipeErr := None; startErr := None;
  stderrText := "corrupt frame";
  waitErr := Some (ErrExit "signal: killed");
  stdoutChunks := ["ab"; "cd"];
  stdoutErr := None
|}.

(** The binary cannot be started. *)
Definition notStarted : Process := {|
  stdoutPipeErr := None; stderrPipeErr := None;
  startErr := Some (ErrWrap "fork/exec ffmpeg" (ErrErrno 2 "no such file or directory"));
  stderrText := ""; waitErr := None; stdoutChunks := []; stdoutErr := None
|}.

Definition serve (p : Process) (w : Client) (f : StreamFormat) : M unit :=
  ServeTranscode GetMaxResolution ProbeAudioCodec MissingUnsupported
    fmt_Sprint (sm software false "FULL_HD") p w (opts f "aac" "").

End Sample.

(* ================================================================= *)
(** ** Reading an argument list                                       *)
(* ================================================================= *)

(** The three built-in stream formats. *)
Definition builtinFormats : list StreamFormat :=
  [StreamTypeMP4; StreamTypeWEBM; StreamTypeMKV].

(** The flag [flag] occurs in the list directly followed by [value]. *)
Fixpoint hasFlag (flag value : string) (a : Args) : bool :=
  match a with
  | [] => false
  | x :: rest =>
      match rest with
      | y :: _ => ((x =? flag) && (y =? value)) || hasFlag flag value rest
      | [] => false
      end
  end.

(** The stream manager with another configured maximum streaming
    resolution, everything else unchanged. *)
Definition withMaxStreamingTranscodeSize (sm : StreamManager) (size : string)
  : StreamManager :=
  {| encoder := encoder sm;
     config := {|
       GetTranscodeHardwareAcceleration :=
         GetTranscodeHardwareAcceleration (config sm);
       GetMaxStreamingTranscodeSize := size;
       GetLiveTranscodeInputArgs := GetLiveTranscodeInputArgs (config sm);
       GetLiveTranscodeOutputArgs := GetLiveTranscodeOutputArgs (config sm)
     |} |}.

(** The process with another end: what it left on its standard error
    and what [cmd.Wait] returns; everything else unchanged. *)
Definition withOutcome (p : Process) (text : string) (w : option error)
  : Process :=
  {| stdoutPipeErr := stdoutPipeErr p;
     stderrPipeErr := stderrPipeErr p;
     startErr := startErr p;
     stderrText := text;
     waitErr := w;
     stdoutChunks := stdoutChunks p;
     stdoutErr := stdoutErr p |}.

(** The three steps that start ffmpeg all succeeded. *)
Definition started (p : Process) : Prop :=
  stdoutPipeErr p = None /\ stderrPipeErr p = None /\ startErr p = None.

(** One of the three steps failed with [err], the earlier ones having
    succeeded. *)
Definition startFailed (p : Process) (err : error) : Prop :=
  stdoutPipeErr p = Some err
  \/ (stdoutPipeErr p = None /\ stderrPipeErr p = Some err)
  \/ (stdoutPipeErr p = None /\ stderrPipeErr p = None
      /\ startErr p = Some err).

(** No command is attached before [cmd.Start] was called. *)
Fixpoint attachFollowsStart (seen : bool) (t : list Event) : bool :=
  match t with
  | [] => true
  | EvStart :: t' => attachFollowsStart true t'
  | EvAttachCommand _ :: t' => seen && attachFollowsStart seen t'
  | _ :: t' => attachFollowsStart seen t'
  end.

(** The chunks of the standard output that carry bytes. *)
Definition nonEmptyChunks (p : Process) : list string :=
  filter (fun c => negb (c =? "")) (stdoutChunks p).

(* ================================================================= *)
(** ** More readers and variants of the inputs                        *)
(* ================================================================= *)

(** The MIME type is one of the three that [FileGetCodec] knows. *)
Definition supportedMime (mimetype : string) : bool :=
  (mimetype =? MimeMp4Video) || (mimetype =? MimeWebmVideo)
  || (mimetype =? MimeMkvVideo).

(** The options with another resolution override, or another start
    time, everything else unchanged. *)
Definition withResolution (o : TranscodeOptions) (r : string)
  : TranscodeOptions :=
  {| StreamType := StreamType o; File := File o; Resolution := r;
     StartTime := StartTime o |}.

Definition withStartTime (o : TranscodeOptions) (t : float)
  : TranscodeOptions :=
  {| StreamType := StreamType o; File := File o; Resolution := Resolution o;
     StartTime := t |}.

(** The calls on the command, in order. *)
Definition isProcessCall (e : Event) : bool :=
  match e with
  | EvStdoutPipe | EvStderrPipe | EvStart => true
  | _ => false
  end.

Definition processCalls (t : list Event) : list Event := filter isProcessCall t.

(** The bodies of the goroutines spawned, in order. *)
Fixpoint spawned (t : list Event) : list (list Event) :=
  match t with
  | [] => []
  | EvGo body :: t' => body :: spawned t'
  | _ :: t' => spawned t'
  end.

(** The paths read-locked, in order. *)
Fixpoint locks (t : list Event) : list string :=
  match t with
  | [] => []
  | EvReadLock path :: t' => path :: locks t'
  | _ :: t' => locks t'
  end.

(** The warning of [ServeTranscode] when the body of the error response
    cannot be written (lines 208-210). *)
Definition bodyWriteLog (w : Client) : list Event :=
  match writeErr w 0 with
  | Some err' =>
      [EvLog LevelWarn ("[transcode] error writing response: " ++ Error err')]
  | None => []
  end.

(* ================================================================= *)
(** ** The owner of the stream manager (internal/manager/manager.go)   *)
(* ================================================================= *)

(** What [RefreshStreamManager] (lines 573-584) and [Shutdown]
    (lines 786-807) do to the outside, in order. *)
Inductive MgrEvent : Type :=
| MgrStopCPUProfile                       (* pprof.StopCPUProfile() *)
| MgrStreamShutdown (cacheDir : string)   (* s.StreamManager.Shutdown() *)
| MgrNewStreamManager (cacheDir : string) (* ffmpeg.NewStreamManager(...) *)
| MgrDatabaseClose                        (* s.Database.Close() *)
| MgrLog (lvl : Level) (msg : string)     (* logger.Errorf *)
| MgrExit (code : Z).                     (* os.Exit(code) *)

(** The fields of [Manager] that the two functions touch: the stream
    manager, if any, is known by the cache directory it was made for. *)
Record Manager := {
  MgrFFMPEG : FFMpeg;
  MgrConfig : Config;
  MgrStreamManager : option (string * StreamManager)
}.

(** [RefreshStreamManager]; [cacheDir] is what [s.Config.GetCachePath()]
    answers at the time of the call.  [NewStreamManager] is given the
    encoder and the configuration of the manager. *)
Definition RefreshStreamManager (s : Manager) (cacheDir : string)
  : Manager * list MgrEvent :=
  let ev1 := match MgrStreamManager s with
             | Some (dir, _) => [MgrStreamShutdown dir]
             | None => []
             end in
  ({| MgrFFMPEG := MgrFFMPEG s;
      MgrConfig := MgrConfig s;
      MgrStreamManager :=
        Some (cacheDir, {| encoder := MgrFFMPEG s; config := MgrConfig s |}) |},
   ev1 ++ [MgrNewStreamManager cacheDir]).

(** A run of refreshes, one per cache directory of the list. *)
Fixpoint refreshes (s : Manager) (dirs : list string)
  : Manager * list MgrEvent :=
  match dirs with
  | [] => (s, [])
  | d :: dirs' =>
      let (s1, t1) := RefreshStreamManager s d in
      let (s2, t2) := refreshes s1 dirs' in
      (s2, t1 ++ t2)
  end.

(** [Manager.Shutdown(code)]; [closeErr] is what [s.Database.Close()]
    returns.  The process ends in [os.Exit]: the last event. *)
Definition ManagerShutdown (s : Manager) (closeErr : option error) (code : Z)
  : Manager * list MgrEvent :=
  let ev1 := match MgrStreamManager s with
             | Some (dir, _) => [MgrStreamShutdown dir]
             | None => []
             end in
  let s' := {| MgrFFMPEG := MgrFFMPEG s; MgrConfig := MgrConfig s;
               MgrStreamManager := None |} in
  let ev2 := match closeErr with
             | Some err =>
                 [MgrLog LevelError ("Error closing database: " ++ Error err)]
                 ++ (if (code =? 0)%Z then [MgrExit 1] else [MgrExit code])
             | None => [MgrExit code]
             end in
  (s', [MgrStopCPUProfile] ++ ev1 ++ [MgrDatabaseClose] ++ ev2).

(** The number of stream managers alive after the events, given how many
    were alive before. *)
Fixpoint liveAfter (n : nat) (t : list MgrEvent) : nat :=
  match t with
  | [] => n
  | MgrNewStreamManager _ :: t' => liveAfter (S n) t'
  | MgrStreamShutdown _ :: t' => liveAfter (Nat.pred n) t'
  | _ :: t' => liveAfter n t'
  end.

(** The largest number of stream managers alive at any moment of the
    events. *)
Fixpoint peakLive (n : nat) (t : list MgrEvent) : nat :=
  match t with
  | [] => n
  | MgrNewStreamManager _ :: t' => Nat.max n (peakLive (S n) t')
  | MgrStreamShutdown _ :: t' => Nat.max n (peakLive (Nat.pred n) t')
  | _ :: t' => peakLive n t'
  end.

(** The stream managers the manager holds. *)
Definition held (s : Manager) : nat :=
  match MgrStreamManager s with Some _ => 1 | None => 0 end.

(** The exit codes of the events. *)
Fixpoint exits (t : list MgrEvent) : list Z :=
  match t with
  | [] => []
  | MgrExit c :: t' => c :: exits t'
  | _ :: t' => exits t'
  end.

(** The log entry of the handler for the result of the copy. *)
Definition copyLog (r : option error) : list Event :=
  match r with
  | Some e =>
      if negb (errors_Is_errno e EPIPE) then
        [EvLog LevelError
           ("[transcode] error serving transcoded video file: " ++ Error e)]
      else []
  | None => []
  end.

(* ================================================================= *)
(** ** Codec selection                                                *)
(* ================================================================= *)

(** C1: for the MP4 and WebM MIME types [FileGetCodec] returns the
    hardware codec when hardware acceleration is enabled and the probe
    reports a compatible codec for the container, and the software
    default of the container (libx264 for MP4, VP9 for WebM) in every
    other case; for Matroska it always returns the copy codec. *)
Theorem FileGetCodec_policy (sm : StreamManager) :
  (forall hw,
      GetTranscodeHardwareAcceleration (config sm) = true ->
      hwCodecMP4Compatible (encoder sm) = Some hw ->
      FileGetCodec sm MimeMp4Video = hw)
  /\ (GetTranscodeHardwareAcceleration (config sm) = false
      \/ hwCodecMP4Compatible (encoder sm) = None ->
      FileGetCodec sm MimeMp4Video = VideoCodecLibX264)
  /\ (forall hw,
      GetTranscodeHardwareAcceleration (config sm) = true ->
      hwCodecWEBMCompatible (encoder sm) = Some hw ->
      FileGetCodec sm MimeWebmVideo = hw)
  /\ (GetTranscodeHardwareAcceleration (config sm) = false
      \/ hwCodecWEBMCompatible (encoder sm) = None ->
      FileGetCodec sm MimeWebmVideo = VideoCodecVP9)
  /\ FileGetCodec sm MimeMkvVideo = VideoCodecCopy.
Proof.
  unfold FileGetCodec; cbn.
  repeat split.
  - intros hw Hacc Hhw. now rewrite Hhw, Hacc.
  - intros [Hacc | Hhw].
    + rewrite Hacc. now destruct (hwCodecMP4Compatible (encoder sm)).
    + now rewrite Hhw.
  - intros hw Hacc Hhw. now rewrite Hhw, Hacc.
  - intros [Hacc | Hhw].
    + rewrite Hacc. now destruct (hwCodecWEBMCompatible (encoder sm)).
    + now rewrite Hhw.
Qed.

(* ================================================================= *)
(** ** Facts about argument lists                                     *)
(* ================================================================= *)

Ltac split_ifs :=
  repeat match goal with
         | |- context [if ?b then _ else _] => destruct b eqn:?
         end.

Lemma hasFlag_absent (flag value : string) (a : Args) :
  ~ In value a -> hasFlag flag value a = false.
Proof.
  induction a as [| x rest IH]; intros Hin; [reflexivity |].
  destruct rest as [| y rest']; [reflexivity |].
  cbn [hasFlag].
  destruct (y =? value) eqn:Hy.
  - apply String.eqb_eq in Hy. exfalso. apply Hin. right. left. exact Hy.
  - rewrite andb_false_r. cbn [orb]. apply IH.
    intros H. apply Hin. right. exact H.
Qed.

Lemma hasFlag_present (flag value : string) (pre post : Args) :
  hasFlag flag value (pre ++ flag :: value :: post) = true.
Proof.
  induction pre as [| x pre IH].
  - cbn. now rewrite !String.eqb_refl.
  - cbn [app hasFlag].
    destruct (pre ++ flag :: value :: post) as [| y l] eqn:E.
    + destruct pre; discriminate E.
    + rewrite IH. apply orb_true_r.
Qed.

(** [CodecInit] is the codec flag followed by the tuning of the codec;
    none of its elements is the empty string. *)
Lemma CodecInit_no_empty_element (codec : VideoCodec) :
  ~ In "" (CodecInit codec).
Proof.
  unfold CodecInit, Args_VideoCodec, VideoCodec_Args.
  destruct (codec =? "") eqn:E0.
  - split_ifs; cbn; intuition discriminate.
  - apply String.eqb_neq in E0.
    split_ifs; cbn; intuition (try discriminate; try congruence).
Qed.

(* ================================================================= *)
(** ** The stream formats                                             *)
(* ================================================================= *)

(** C2: the arguments of each built-in format are the codec
    initialization of the codec followed by a remainder that does not
    depend on the codec (and holds no codec flag unless the filter text
    is that flag); MP4 and WebM apply the video filter if and only if it
    is not empty; Matroska ignores the video filter. *)
Theorem ArgsFunc_codec_and_filter (filter : VideoFilter) (vOnly : bool) :
  (forall fmt, In fmt builtinFormats ->
     exists rest,
       (forall codec, ArgsFunc fmt codec filter vOnly = CodecInit codec ++ rest)
       /\ (filter <> "-c:v" -> ~ In "-c:v" rest))
  /\ (forall codec,
        hasFlag "-vf" filter (ArgsFunc StreamTypeMP4 codec filter vOnly)
        = negb (filter =? ""))
  /\ (forall codec,
        hasFlag "-vf" filter (ArgsFunc StreamTypeWEBM codec filter vOnly)
        = negb (filter =? ""))
  /\ (forall codec filter',
        ArgsFunc StreamTypeMKV codec filter' vOnly
        = ArgsFunc StreamTypeMKV codec filter vOnly).
Proof.
  repeat split.
  - intros fmt [H | [H | [H | []]]]; subst fmt; cbn [ArgsFunc StreamTypeMP4
      StreamTypeWEBM StreamTypeMKV];
      unfold Args_Format, Args_VideoFilter, Args_SkipAudio, Args_AudioCodec,
        VideoFilter_Args.
    + exists (["-movflags"; "frag_keyframe+empty_moov"]
              ++ (if filter =? "" then [] else ["-vf"; filter])
              ++ (if vOnly then ["-an"] else ["-ac"; "2"])
              ++ ["-f"; "mp4"]).
      split.
      * intros codec. destruct vOnly; cbn; now rewrite <- !app_assoc.
      * intros Hf Hin. destruct (filter =? ""), vOnly; cbn in Hin;
          intuition (try discriminate; try congruence).
    + exists ((if filter =? "" then [] else ["-vf"; filter])
              ++ (if vOnly then ["-an"] else ["-ac"; "2"])
              ++ ["-f"; "webm"]).
      split.
      * intros codec. destruct vOnly; cbn; now rewrite <- !app_assoc.
      * intros Hf Hin. destruct (filter =? ""), vOnly; cbn in Hin;
          intuition (try discriminate; try congruence).
    + exists ((if vOnly then ["-an"]
               else ["-c:a"; "libopus"; "-b:a"; "96k"; "-vbr"; "on"; "-ac"; "2"])
              ++ ["-f"; "matroska"]).
      split.
      * intros codec. destruct vOnly; cbn; now rewrite <- !app_assoc.
      * intros Hf Hin. destruct vOnly; cbn in Hin;
          intuition (try discriminate; try congruence).
  - intros codec. cbn [ArgsFunc StreamTypeMP4].
    unfold Args_Format, Args_VideoFilter, Args_SkipAudio, VideoFilter_Args.
    destruct (filter =? "") eqn:Ef.
    + apply String.eqb_eq in Ef. subst filter. cbn [negb].
      apply hasFlag_absent.
      pose proof (CodecInit_no_empty_element codec) as Hc.
      intros Hin. destruct vOnly;
        repeat rewrite in_app_iff in Hin; cbn -[CodecInit] in Hin;
        intuition (try discriminate).
    + cbn [negb].
      destruct vOnly; rewrite <- !app_assoc; cbn [app];
        change (?a :: ?b :: "-vf" :: ?r) with ([a; b] ++ "-vf" :: r);
        rewrite app_assoc; apply hasFlag_present.
  - intros codec. cbn [ArgsFunc StreamTypeWEBM].
    unfold Args_Format, Args_VideoFilter, Args_SkipAudio, VideoFilter_Args.
    destruct (filter =? "") eqn:Ef.
    + apply String.eqb_eq in Ef. subst filter. cbn [negb].
      apply hasFlag_absent.
      pose proof (CodecInit_no_empty_element codec) as Hc.
      intros Hin. destruct vOnly;
        repeat rewrite in_app_iff in Hin; cbn -[CodecInit] in Hin;
        intuition (try discriminate).
    + cbn [negb].
      destruct vOnly; rewrite <- !app_assoc; cbn [app];
        apply hasFlag_present.
Qed.

Section ArgumentProperties.

Variable GetMaxResolution : string -> Z.
Variable ProbeAudioCodec : string -> string.
Variable MissingUnsupported : string.
Variable fmt_Sprint : float -> string.

Local Abbreviation videoOnly' := (videoOnly ProbeAudioCodec MissingUnsupported).
Local Abbreviation videoFilter' := (videoFilter GetMaxResolution).
Local Abbreviation makeStreamArgs' :=
  (makeStreamArgs GetMaxResolution ProbeAudioCodec MissingUnsupported
     fmt_Sprint).

(** C3: [videoOnly] is true exactly when the audio codec of the file
    probes as missing or unsupported, and it is the flag handed to the
    format; with it the format skips the audio track, without it MP4
    and WebM force two channels and Matroska encodes Opus at 96k with
    two channels; nothing else in the arguments of a format depends on
    it, and the container flags come last. *)
Theorem audio_handling (sm : StreamManager) (o : TranscodeOptions) :
  (videoOnly' o = true
   <-> ProbeAudioCodec (AudioCodecName (File o)) = MissingUnsupported)
  /\ (exists head,
        makeStreamArgs' sm o
        = head
          ++ ArgsFunc (StreamType o)
               (FileGetCodec sm (MimeType (StreamType o)))
               (videoFilter' sm o) (videoOnly' o)
          ++ GetLiveTranscodeOutputArgs (config sm) ++ ["pipe:"])
  /\ (forall codec filter,
        (exists pre,
            ArgsFunc StreamTypeMP4 codec filter true
            = Args_Format (Args_SkipAudio pre) FormatMP4
            /\ ArgsFunc StreamTypeMP4 codec filter false
               = Args_Format (pre ++ ["-ac"; "2"]) FormatMP4)
        /\ (exists pre,
            ArgsFunc StreamTypeWEBM codec filter true
            = Args_Format (Args_SkipAudio pre) FormatWebm
            /\ ArgsFunc StreamTypeWEBM codec filter false
               = Args_Format (pre ++ ["-ac"; "2"]) FormatWebm)
        /\ (exists pre,
            ArgsFunc StreamTypeMKV codec filter true
            = Args_Format (Args_SkipAudio pre) FormatMatroska
            /\ ArgsFunc StreamTypeMKV codec filter false
               = Args_Format
                   (pre ++ ["-c:a"; "libopus"; "-b:a"; "96k"; "-vbr"; "on";
                            "-ac"; "2"]) FormatMatroska)).
Proof.
  split; [| split].
  - unfold videoOnly. apply String.eqb_eq.
  - unfold makeStreamArgs, Args_Output. cbv zeta.
    match goal with
    | |- exists _, ((?h ++ _) ++ _) ++ _ = _ => exists h
    end.
    now rewrite <- !app_assoc.
  - intros codec filter. repeat split.
    + exists (Args_VideoFilter
                (CodecInit codec ++ ["-movflags"; "frag_keyframe+empty_moov"])
                filter).
      split; reflexivity.
    + exists (Args_VideoFilter (CodecInit codec) filter).
      split; reflexivity.
    + exists (CodecInit codec).
      split; [reflexivity |].
      cbn [ArgsFunc StreamTypeMKV]. unfold Args_AudioCodec.
      now rewrite <- app_assoc.
Qed.

(** C10: with a non-empty [Resolution] the cap handed to the filter
    computation is the maximum resolution of that override alone; the
    configured maximum streaming resolution has no influence on the
    arguments, so the override is not clamped to it. *)
Theorem resolution_override (sm : StreamManager) (o : TranscodeOptions) :
  Resolution o <> "" ->
  maxTranscodeSize GetMaxResolution sm o = GetMaxResolution (Resolution o)
  /\ videoFilter' sm o
     = hwMaxResFilter (encoder sm)
         (FileGetCodec sm (MimeType (StreamType o)))
         (Width (File o)) (Height (File o))
         (GetMaxResolution (Resolution o))
  /\ (forall size,
        makeStreamArgs' (withMaxStreamingTranscodeSize sm size) o
        = makeStreamArgs' sm o).
Proof.
  intros Hres. apply String.eqb_neq in Hres.
  assert (Hmax : forall sm', maxTranscodeSize GetMaxResolution sm' o
                             = GetMaxResolution (Resolution o)).
  { intros sm'. unfold maxTranscodeSize. now rewrite Hres. }
  split; [apply Hmax | split].
  - unfold videoFilter. now rewrite Hmax.
  - intros size. unfold makeStreamArgs, videoFilter.
    rewrite !Hmax. reflexivity.
Qed.

End ArgumentProperties.

(* ================================================================= *)
(** ** Facts about traces                                             *)
(* ================================================================= *)

Lemma response_app (t1 t2 : list Event) :
  response (t1 ++ t2) = response t1 ++ response t2.
Proof. apply filter_app. Qed.

Lemma logged_app (t1 t2 : list Event) :
  logged (t1 ++ t2) = logged t1 ++ logged t2.
Proof.
  induction t1 as [| e t1 IH]; [reflexivity |].
  destruct e; cbn; now rewrite ?IH.
Qed.

Lemma attached_app (t1 t2 : list Event) :
  attached (t1 ++ t2) = attached t1 ++ attached t2.
Proof.
  induction t1 as [| e t1 IH]; [reflexivity |].
  destruct e; cbn; now rewrite ?IH.
Qed.

Lemma written_app (t1 t2 : list Event) :
  written (t1 ++ t2) = written t1 ++ written t2.
Proof.
  induction t1 as [| e t1 IH]; [reflexivity |].
  destruct e; cbn; now rewrite ?IH.
Qed.

Lemma response_writes (l : list string) :
  response (map EvWrite l) = map EvWrite l.
Proof.
  unfold response. induction l as [| d l IH]; cbn; now rewrite ?IH.
Qed.

Lemma logged_writes (l : list string) : logged (map EvWrite l) = [].
Proof. induction l as [| d l IH]; cbn; now rewrite ?IH. Qed.

Lemma attached_writes (l : list string) : attached (map EvWrite l) = [].
Proof. induction l as [| d l IH]; cbn; now rewrite ?IH. Qed.

Lemma written_writes (l : list string) : written (map EvWrite l) = l.
Proof. induction l as [| d l IH]; cbn; now rewrite ?IH. Qed.

Lemma attachFollowsStart_seen (t : list Event) :
  attachFollowsStart true t = true.
Proof. induction t as [| e t IH]; [reflexivity |]. destruct e; cbn; exact IH. Qed.

(** [io.Copy] only writes, and what it writes is a prefix of the chunks
    that carry bytes, in their order. *)
Lemma io_Copy_trace (c : Client) (chunks : list string) (rd : option error) :
  forall n, exists k,
    trace (io_Copy c n chunks rd)
    = map EvWrite (firstn k (filter (fun d => negb (d =? "")) chunks)).
Proof.
  induction chunks as [| d chunks IH]; intros n.
  - exists 0%nat. reflexivity.
  - cbn [io_Copy filter]. destruct (d =? ""); cbn [negb].
    + apply IH.
    + destruct (writeErr c n) as [ew |].
      * exists 1%nat. reflexivity.
      * destruct (IH (S n)) as [k Hk]. exists (S k).
        unfold trace, bind, emit in *.
        destruct (io_Copy c (S n) chunks rd) as [r t]. cbn in *.
        now rewrite Hk.
Qed.


Lemma handler_trace (mimeType : string) (p : Process) (w : Client) :
  trace (handler mimeType p w)
  = [EvHeaderSet "Cache-Control" "no-store";
     EvHeaderSet "Content-Type" mimeType;
     EvWriteHeader StatusOK]
    ++ trace (io_Copy w 0 (stdoutChunks p) (stdoutErr p))
    ++ copyLog (fst (io_Copy w 0 (stdoutChunks p) (stdoutErr p)))
    ++ [EvFlush].
Proof.
  unfold handler, trace, bind, emit, ret, copyLog.
  destruct (io_Copy w 0 (stdoutChunks p) (stdoutErr p)) as [[e |] t]; cbn.
  - destruct (errors_Is_errno e EPIPE); cbn; now rewrite ?app_nil_r.
  - reflexivity.
Qed.

Section ServingTraces.

Variable GetMaxResolution : string -> Z.
Variable ProbeAudioCodec : string -> string.
Variable MissingUnsupported : string.
Variable fmt_Sprint : float -> string.

Local Abbreviation makeStreamArgs' :=
  (makeStreamArgs GetMaxResolution ProbeAudioCodec MissingUnsupported
     fmt_Sprint).
Local Abbreviation Serve :=
  (ServeTranscode GetMaxResolution ProbeAudioCodec MissingUnsupported
     fmt_Sprint).

(** The whole trace of a request whose ffmpeg started. *)
Lemma Serve_trace_started sm p w o :
  started p ->
  trace (Serve sm p w o)
  = [EvReadLock (Path (File o)); EvStdoutPipe; EvStderrPipe; EvStart;
     EvAttachCommand (Command (encoder sm) (makeStreamArgs' sm o));
     EvGo (trace (stderrDrain p
                    (Command (encoder sm) (makeStreamArgs' sm o))))]
    ++ trace (handler (MimeType (StreamType o)) p w).
Proof.
  intros (H1 & H2 & H3).
  unfold ServeTranscode, getTranscodeStream.
  rewrite H1, H2, H3.
  unfold trace, bind, emit, ret.
  destruct (handler (MimeType (StreamType o)) p w) as [u t].
  reflexivity.
Qed.

(** The whole trace of a request whose ffmpeg did not start. *)
Lemma Serve_trace_failed sm p w o err :
  startFailed p err ->
  exists before after,
    trace (Serve sm p w o)
    = before
      ++ [EvLog LevelError
            ("[transcode] error transcoding video file: " ++ Error err);
          EvWriteHeader StatusBadRequest;
          EvWrite (Error err)]
      ++ after
    /\ response before = [] /\ response after = []
    /\ attached before = [] /\ attached after = [].
Proof.
  intros [H1 | [(H1 & H2) | (H1 & H2 & H3)]];
    unfold ServeTranscode, getTranscodeStream;
    rewrite ?H1, ?H2, ?H3; unfold trace, bind, emit, ret; cbn [snd fst app].
  - exists [EvReadLock (Path (File o)); EvStdoutPipe;
            EvLog LevelError
              ("[transcode] ffmpeg stdout not available: " ++ Error err)].
    destruct (writeErr w 0) as [e |]; eexists; cbn; repeat split.
  - exists [EvReadLock (Path (File o)); EvStdoutPipe; EvStderrPipe;
            EvLog LevelError
              ("[transcode] ffmpeg stderr not available: " ++ Error err)].
    destruct (writeErr w 0) as [e |]; eexists; cbn; repeat split.
  - exists [EvReadLock (Path (File o)); EvStdoutPipe; EvStderrPipe; EvStart].
    destruct (writeErr w 0) as [e |]; eexists; cbn; repeat split.
Qed.

(** A process either started or failed at one of the three steps. *)
Lemma started_or_failed (p : Process) :
  started p \/ exists err, startFailed p err.
Proof.
  unfold started, startFailed.
  destruct (stdoutPipeErr p) as [e1 |]; [right; exists e1; now left |].
  destruct (stderrPipeErr p) as [e2 |]; [right; exists e2; right; now left |].
  destruct (startErr p) as [e3 |]; [right; exists e3; right; now right |].
  now left.
Qed.

Lemma started_not_failed (p : Process) (err : error) :
  started p -> startFailed p err -> False.
Proof.
  intros (H1 & H2 & H3) [F | [(_ & F) | (_ & _ & F)]]; congruence.
Qed.

End ServingTraces.

Lemma attachFollowsStart_none (t : list Event) (seen : bool) :
  attached t = [] -> attachFollowsStart seen t = true.
Proof.
  revert seen. induction t as [| e t IH]; intros seen Hat; [reflexivity |].
  destruct e; cbn in *; try (apply IH; exact Hat); discriminate.
Qed.

Lemma copyLog_quiet (r : option error) :
  response (copyLog r) = [] /\ attached (copyLog r) = []
  /\ written (copyLog r) = [] /\ ~ In EvFlush (copyLog r).
Proof.
  destruct r as [e |]; cbn; [destruct (errors_Is_errno e EPIPE) |]; cbn;
    intuition discriminate.
Qed.

(* ================================================================= *)
(** ** The handler                                                    *)
(* ================================================================= *)

(** C6: when the copy to the response fails with a broken pipe the
    handler logs nothing; when it fails with any other error the handler
    logs that error once; in both cases the response receives nothing
    but the headers, the writes of the copy and the final flush. *)
Theorem copy_errors_not_surfaced (mimeType : string) (p : Process) (w : Client) :
  (forall e,
      fst (io_Copy w 0 (stdoutChunks p) (stdoutErr p)) = Some e ->
      errors_Is_errno e EPIPE = true ->
      logged (trace (handler mimeType p w)) = [])
  /\ (forall e,
      fst (io_Copy w 0 (stdoutChunks p) (stdoutErr p)) = Some e ->
      errors_Is_errno e EPIPE = false ->
      logged (trace (handler mimeType p w))
      = [(LevelError,
          ("[transcode] error serving transcoded video file: " ++ Error e)%string)])
  /\ (fst (io_Copy w 0 (stdoutChunks p) (stdoutErr p)) = None ->
      logged (trace (handler mimeType p w)) = [])
  /\ response (trace (handler mimeType p w))
     = [EvHeaderSet "Cache-Control" "no-store";
        EvHeaderSet "Content-Type" mimeType;
        EvWriteHeader StatusOK]
       ++ trace (io_Copy w 0 (stdoutChunks p) (stdoutErr p))
       ++ [EvFlush].
Proof.
  rewrite handler_trace.
  destruct (io_Copy_trace w (stdoutChunks p) (stdoutErr p) 0) as [k Hk].
  rewrite Hk.
  repeat split.
  - intros e He Hpipe. rewrite He.
    rewrite !logged_app, logged_writes. cbn. now rewrite Hpipe.
  - intros e He Hpipe. rewrite He.
    rewrite !logged_app, logged_writes. cbn. now rewrite Hpipe.
  - intros He. rewrite He.
    rewrite !logged_app, logged_writes. reflexivity.
  - rewrite !response_app, response_writes.
    destruct (copyLog_quiet (fst (io_Copy w 0 (stdoutChunks p) (stdoutErr p))))
      as (Hq & _).
    rewrite Hq. reflexivity.
Qed.


(* ================================================================= *)
(** ** Serving a request                                              *)
(* ================================================================= *)

Section ServingProperties.

Variable GetMaxResolution : string -> Z.
Variable ProbeAudioCodec : string -> string.
Variable MissingUnsupported : string.
Variable fmt_Sprint : float -> string.

Local Abbreviation makeStreamArgs' :=
  (makeStreamArgs GetMaxResolution ProbeAudioCodec MissingUnsupported
     fmt_Sprint).
Local Abbreviation getStream :=
  (getTranscodeStream GetMaxResolution ProbeAudioCodec MissingUnsupported
     fmt_Sprint).
Local Abbreviation Serve :=
  (ServeTranscode GetMaxResolution ProbeAudioCodec MissingUnsupported
     fmt_Sprint).
Local Abbreviation Serve_started :=
  (Serve_trace_started GetMaxResolution ProbeAudioCodec MissingUnsupported
     fmt_Sprint).
Local Abbreviation Serve_failed :=
  (Serve_trace_failed GetMaxResolution ProbeAudioCodec MissingUnsupported
     fmt_Sprint).

(** C4: when the stdout pipe, the stderr pipe or the start of ffmpeg
    fails, the response is 400 Bad Request followed by the text of that
    error and nothing else; [getTranscodeStream] returns a handler, and
    the 200 of the handler is sent, only when all three steps
    succeeded. *)
Theorem start_failure_bad_request
        (sm : StreamManager) (p : Process) (w : Client)
        (o : TranscodeOptions) :
  (forall err,
      startFailed p err ->
      fst (getStream sm p o) = inr err
      /\ response (trace (Serve sm p w o))
         = [EvWriteHeader StatusBadRequest; EvWrite (Error err)])
  /\ (forall h, fst (getStream sm p o) = inl h -> started p)
  /\ (In (EvWriteHeader StatusOK) (trace (Serve sm p w o)) -> started p).
Proof.
  split; [| split].
  - intros err H. split.
    + destruct H as [H1 | [(H1 & H2) | (H1 & H2 & H3)]];
        unfold getTranscodeStream; rewrite ?H1, ?H2, ?H3; reflexivity.
    + destruct (Serve_failed sm p w o err H)
        as (before & after & Ht & Hb & Ha & _).
      rewrite Ht, !response_app, Hb, Ha. reflexivity.
  - intros h H.
    destruct (started_or_failed p) as [Hs | [err Hf]]; [apply Hs |].
    destruct Hf as [H1 | [(H1 & H2) | (H1 & H2 & H3)]];
      revert H; unfold getTranscodeStream; rewrite ?H1, ?H2, ?H3;
      discriminate.
  - intros H.
    destruct (started_or_failed p) as [Hs | [err Hf]]; [apply Hs |].
    exfalso.
    destruct (Serve_failed sm p w o err Hf)
      as (before & after & Ht & Hb & Ha & _).
    rewrite Ht in H.
    assert (Hr : In (EvWriteHeader StatusOK)
                    (response (before
                               ++ [EvLog LevelError
                                     ("[transcode] error transcoding video file: "
                                      ++ Error err);
                                   EvWriteHeader StatusBadRequest;
                                   EvWrite (Error err)] ++ after))).
    { apply filter_In. split; [exact H | reflexivity]. }
    rewrite !response_app, Hb, Ha in Hr. cbn in Hr.
    unfold StatusOK, StatusBadRequest in Hr.
    intuition discriminate.
Qed.

(** C5: when ffmpeg ends with an exit error and has written nothing on
    its standard error, the goroutine that waits for it logs nothing;
    text on the standard error is logged as an error whatever the exit
    was; and how ffmpeg ended never changes what the request itself
    does (its result, its response, its own log). *)
Theorem expected_termination
        (sm : StreamManager) (p : Process) (w : Client)
        (o : TranscodeOptions) (cmd : Cmd) :
  (forall e,
      waitErr p = Some e ->
      errors_As_ExitError e = true ->
      stderrText p = "" ->
      logged (trace (stderrDrain p cmd)) = [])
  /\ (stderrText p <> "" ->
      logged (trace (stderrDrain p cmd))
      = [(LevelError,
          ("[transcode] ffmpeg error when running command <"
           ++ strings_Join (CmdArgs cmd) " " ++ ">: " ++ stderrText p)%string)])
  /\ (forall text we,
        foreground (trace (Serve sm (withOutcome p text we) w o))
        = foreground (trace (Serve sm p w o))).
Proof.
  split; [| split].
  - intros e Hwait Hexit Htext.
    unfold stderrDrain. rewrite Htext, Hwait. cbn.
    now rewrite Hexit.
  - intros Htext. apply String.eqb_neq in Htext.
    unfold stderrDrain. rewrite Htext. reflexivity.
  - intros text we.
    destruct (started_or_failed p) as [Hs | [err Hf]].
    + assert (Hs' : started (withOutcome p text we)) by exact Hs.
      rewrite (Serve_started sm _ w o Hs'), (Serve_started sm _ w o Hs).
      reflexivity.
    + destruct Hf as [H1 | [(H1 & H2) | (H1 & H2 & H3)]];
        unfold ServeTranscode, getTranscodeStream; cbn [withOutcome
          stdoutPipeErr stderrPipeErr startErr];
        rewrite ?H1, ?H2, ?H3; reflexivity.
Qed.

(** C8: when ffmpeg started, the response begins with the header
    Cache-Control: no-store, the header Content-Type with the MIME type
    of the stream format, and the status 200 OK; the bodies written
    come after them, followed by the flush. *)
Theorem streaming_response_headers
        (sm : StreamManager) (p : Process) (w : Client)
        (o : TranscodeOptions) :
  started p ->
  response (trace (Serve sm p w o))
  = [EvHeaderSet "Cache-Control" "no-store";
     EvHeaderSet "Content-Type" (MimeType (StreamType o));
     EvWriteHeader StatusOK]
    ++ map EvWrite (written (trace (Serve sm p w o)))
    ++ [EvFlush].
Proof.
  intros Hs. rewrite (Serve_started sm p w o Hs), handler_trace.
  destruct (io_Copy_trace w (stdoutChunks p) (stdoutErr p) 0) as [k Hk].
  destruct (copyLog_quiet (fst (io_Copy w 0 (stdoutChunks p) (stdoutErr p))))
    as (Hr & _ & Hw & _).
  rewrite Hk.
  rewrite !response_app, !written_app, response_writes, written_writes.
  rewrite Hr, Hw. cbn. now rewrite app_nil_r.
Qed.

(** C9: a request attaches at most one command to its lock context: the
    command it started, when all three steps succeeded, and none when a
    step failed; the attachment never precedes the call of
    [cmd.Start]. *)
Theorem attach_at_most_once
        (sm : StreamManager) (p : Process) (w : Client)
        (o : TranscodeOptions) :
  (length (attached (trace (Serve sm p w o))) <= 1)%nat
  /\ (forall err,
        startFailed p err -> attached (trace (Serve sm p w o)) = [])
  /\ (started p ->
      attached (trace (Serve sm p w o))
      = [Command (encoder sm) (makeStreamArgs' sm o)])
  /\ (attached (trace (Serve sm p w o)) <> [] -> started p)
  /\ attachFollowsStart false (trace (Serve sm p w o)) = true.
Proof.
  assert (Hfail : forall err, startFailed p err ->
                              attached (trace (Serve sm p w o)) = []).
  { intros err Hf.
    destruct (Serve_failed sm p w o err Hf)
      as (before & after & Ht & _ & _ & Hb & Ha).
    rewrite Ht, !attached_app, Hb, Ha. reflexivity. }
  assert (Hok : started p ->
                attached (trace (Serve sm p w o))
                = [Command (encoder sm) (makeStreamArgs' sm o)]).
  { intros Hs. rewrite (Serve_started sm p w o Hs), handler_trace.
    destruct (io_Copy_trace w (stdoutChunks p) (stdoutErr p) 0) as [k Hk].
    destruct (copyLog_quiet
                (fst (io_Copy w 0 (stdoutChunks p) (stdoutErr p))))
      as (_ & Hc & _).
    rewrite Hk, !attached_app, attached_writes, Hc. reflexivity. }
  split; [| split; [| split; [| split]]].
  - destruct (started_or_failed p) as [Hs | [err Hf]].
    + rewrite (Hok Hs). cbn. lia.
    + rewrite (Hfail err Hf). cbn. lia.
  - exact Hfail.
  - exact Hok.
  - intros Hne.
    destruct (started_or_failed p) as [Hs | [err Hf]]; [exact Hs |].
    exfalso. apply Hne. exact (Hfail err Hf).
  - destruct (started_or_failed p) as [Hs | [err Hf]].
    + rewrite (Serve_started sm p w o Hs). cbn.
      apply attachFollowsStart_seen.
    + apply attachFollowsStart_none. exact (Hfail err Hf).
Qed.

End ServingProperties.

(* ================================================================= *)
(** ** The properties on the sample collaborators                     *)
(* ================================================================= *)

(** With an NVIDIA encoder probed, MP4 gets the hardware codec when
    acceleration is on and libx264 when it is off; WebM, for which the
    probe reports nothing, gets VP9. *)
Lemma FileGetCodec_policy_witness :
  FileGetCodec (Sample.sm Sample.nvidia true "FULL_HD") MimeMp4Video
  = VideoCodecN264
  /\ FileGetCodec (Sample.sm Sample.nvidia false "FULL_HD") MimeMp4Video
     = VideoCodecLibX264
  /\ FileGetCodec (Sample.sm Sample.nvidia true "FULL_HD") MimeWebmVideo
     = VideoCodecVP9.
Proof.
  split; [| split].
  - apply (proj1 (FileGetCodec_policy (Sample.sm Sample.nvidia true "FULL_HD"))
             VideoCodecN264); reflexivity.
  - apply (proj1 (proj2 (FileGetCodec_policy
                           (Sample.sm Sample.nvidia false "FULL_HD")))).
    left. reflexivity.
  - apply (proj1 (proj2 (proj2 (proj2
             (FileGetCodec_policy (Sample.sm Sample.nvidia true "FULL_HD")))))).
    right. reflexivity.
Defined.

(** MP4 with a scaling filter: the codec initialization comes first and
    the rest holds no codec flag. *)
Lemma ArgsFunc_codec_and_filter_witness :
  exists rest,
    (forall codec,
        ArgsFunc StreamTypeMP4 codec "scale=-2:1080" false
        = CodecInit codec ++ rest)
    /\ ~ In "-c:v" rest.
Proof.
  destruct (proj1 (ArgsFunc_codec_and_filter "scale=-2:1080" false)
              StreamTypeMP4 (or_introl eq_refl)) as (rest & Hrest & Hflag).
  exists rest. split; [exact Hrest |].
  apply Hflag. discriminate.
Defined.

(** Matroska is given a scaling filter and the arguments do not apply
    it. *)
Lemma ArgsFunc_filter_counterexample :
  In StreamTypeMKV builtinFormats
  /\ "scale=-2:1080" <> ""
  /\ ArgsFunc StreamTypeMKV VideoCodecCopy "scale=-2:1080" false
     = ["-c:v"; "copy"; "-c:a"; "libopus"; "-b:a"; "96k"; "-vbr"; "on";
        "-ac"; "2"; "-f"; "matroska"]
  /\ hasFlag "-vf" "scale=-2:1080"
       (ArgsFunc StreamTypeMKV VideoCodecCopy "scale=-2:1080" false)
     = false.
Proof.
  split; [| split; [| split]].
  - right. right. left. reflexivity.
  - discriminate.
  - reflexivity.
  - reflexivity.
Defined.

(** The scenario of a Matroska request for a file without usable audio:
    [videoOnly] is true. *)
Lemma audio_handling_witness :
  videoOnly Sample.ProbeAudioCodec Sample.MissingUnsupported
    (Sample.opts StreamTypeMKV "" "") = true.
Proof.
  apply (proj2 (proj1 (audio_handling Sample.GetMaxResolution
                         Sample.ProbeAudioCodec Sample.MissingUnsupported
                         Sample.fmt_Sprint
                         (Sample.sm Sample.software false "FULL_HD")
                         (Sample.opts StreamTypeMKV "" "")))).
  reflexivity.
Defined.

(** The configuration allows 240 lines, the request asks for 4K: the cap
    is 2160. *)
Lemma resolution_override_witness :
  Sample.GetMaxResolution "LOW" = 240%Z
  /\ maxTranscodeSize Sample.GetMaxResolution
       (Sample.sm Sample.software false "LOW")
       (Sample.opts StreamTypeMP4 "aac" "FOUR_K") = 2160%Z.
Proof.
  split; [reflexivity |].
  apply (proj1 (resolution_override Sample.GetMaxResolution
                  Sample.ProbeAudioCodec Sample.MissingUnsupported
                  Sample.fmt_Sprint
                  (Sample.sm Sample.software false "LOW")
                  (Sample.opts StreamTypeMP4 "aac" "FOUR_K")
                  ltac:(discriminate))).
Defined.

(** The binary is missing: 400 with the text of the error. *)
Lemma start_failure_bad_request_witness :
  response (trace (Sample.serve Sample.notStarted Sample.noWriteErr
                     StreamTypeMP4))
  = [EvWriteHeader 400; EvWrite "fork/exec ffmpeg: no such file or directory"].
Proof.
  apply (proj2 (proj1 (start_failure_bad_request Sample.GetMaxResolution
                         Sample.ProbeAudioCodec Sample.MissingUnsupported
                         Sample.fmt_Sprint
                         (Sample.sm Sample.software false "FULL_HD")
                         Sample.notStarted Sample.noWriteErr
                         (Sample.opts StreamTypeMP4 "aac" ""))
                      (ErrWrap "fork/exec ffmpeg"
                         (ErrErrno 2 "no such file or directory"))
                      (or_intror (or_intror
                         (conj eq_refl (conj eq_refl eq_refl)))))).
Defined.

(** ffmpeg is killed and had written nothing: the goroutine is silent. *)
Lemma expected_termination_witness :
  logged (trace (stderrDrain Sample.killedQuiet
                   (Command Sample.software ["-i"; "/media/a.mkv"]))) = [].
Proof.
  apply (proj1 (expected_termination Sample.GetMaxResolution
                  Sample.ProbeAudioCodec Sample.MissingUnsupported
                  Sample.fmt_Sprint
                  (Sample.sm Sample.software false "FULL_HD")
                  Sample.killedQuiet Sample.noWriteErr
                  (Sample.opts StreamTypeMP4 "aac" "")
                  (Command Sample.software ["-i"; "/media/a.mkv"]))
               (ErrExit "signal: killed"));
    reflexivity.
Defined.

(** ffmpeg is killed after it had reported a damaged frame: [cmd.Wait]
    returns an exit error, and the goroutine logs an error. *)
Lemma expected_termination_counterexample :
  waitErr Sample.killedNoisy = Some (ErrExit "signal: killed")
  /\ errors_As_ExitError (ErrExit "signal: killed") = true
  /\ logged (trace (stderrDrain Sample.killedNoisy
                      (Command Sample.software ["-i"; "/media/a.mkv"])))
     = [(LevelError,
         "[transcode] ffmpeg error when running command <ffmpeg -i /media/a.mkv>: corrupt frame")].
Proof.
  split; [| split]; reflexivity.
Defined.

(** The client disconnects during the second write: nothing is logged;
    on a timeout the error is logged. *)
Lemma copy_errors_not_surfaced_witness :
  logged (trace (handler "video/mp4" Sample.killedQuiet Sample.disconnects))
  = []
  /\ logged (trace (handler "video/mp4" Sample.killedQuiet Sample.timesOut))
     = [(LevelError,
         "[transcode] error serving transcoded video file: write tcp: i/o timeout")].
Proof.
  split.
  - apply (proj1 (copy_errors_not_surfaced "video/mp4" Sample.killedQuiet
                    Sample.disconnects)
                 (ErrWrap "write tcp" (ErrErrno EPIPE "broken pipe")));
      reflexivity.
  - apply (proj1 (proj2 (copy_errors_not_surfaced "video/mp4"
                           Sample.killedQuiet Sample.timesOut))
                 (ErrWrap "write tcp" (ErrNew "i/o timeout")));
      reflexivity.
Defined.



(** A WebM request that streams two chunks. *)
Lemma streaming_response_headers_witness :
  response (trace (Sample.serve Sample.killedQuiet Sample.noWriteErr
                     StreamTypeWEBM))
  = [EvHeaderSet "Cache-Control" "no-store";
     EvHeaderSet "Content-Type" "video/webm";
     EvWriteHeader 200; EvWrite "ab"; EvWrite "cd"; EvFlush].
Proof.
  exact (streaming_response_headers Sample.GetMaxResolution
           Sample.ProbeAudioCodec Sample.MissingUnsupported Sample.fmt_Sprint
           (Sample.sm Sample.software false "FULL_HD")
           Sample.killedQuiet Sample.noWriteErr
           (Sample.opts StreamTypeWEBM "aac" "")
           (conj eq_refl (conj eq_refl eq_refl))).
Defined.

(** The binary is missing: nothing is attached to the lock context. *)
Lemma attach_at_most_once_witness :
  attached (trace (Sample.serve Sample.notStarted Sample.noWriteErr
                     StreamTypeMP4)) = [].
Proof.
  apply (proj1 (proj2 (attach_at_most_once Sample.GetMaxResolution
                         Sample.ProbeAudioCodec Sample.MissingUnsupported
                         Sample.fmt_Sprint
                         (Sample.sm Sample.software false "FULL_HD")
                         Sample.notStarted Sample.noWriteErr
                         (Sample.opts StreamTypeMP4 "aac" "")))
               (ErrWrap "fork/exec ffmpeg"
                  (ErrErrno 2 "no such file or directory"))).
  right. right. repeat split.
Defined.

(* ================================================================= *)
(** ** Further properties of the argument builders                    *)
(* ================================================================= *)

(** A codec that is not the zero value opens its initialization with
    the codec flag and its own name. *)
Lemma CodecInit_head (codec : VideoCodec) :
  codec <> "" -> exists tuning, CodecInit codec = "-c:v" :: codec :: tuning.
Proof.
  intros Hc. apply String.eqb_neq in Hc.
  unfold CodecInit, Args_VideoCodec, VideoCodec_Args. rewrite Hc.
  split_ifs; cbn [app]; eexists; reflexivity.
Qed.

(** X1: unless the hardware probe itself reports the zero codec,
    [FileGetCodec] returns the zero codec exactly for the MIME types it
    does not know, whatever the configuration says. *)
Theorem FileGetCodec_zero_iff_unsupported
        (sm : StreamManager) (mimetype : string) :
  hwCodecMP4Compatible (encoder sm) <> Some "" ->
  hwCodecWEBMCompatible (encoder sm) <> Some "" ->
  (FileGetCodec sm mimetype = "" <-> supportedMime mimetype = false).
Proof.
  intros Hmp4 Hwebm. unfold FileGetCodec, supportedMime.
  destruct (mimetype =? MimeMp4Video).
  - cbn [orb]. split; [| discriminate].
    destruct (hwCodecMP4Compatible (encoder sm)) as [hw |].
    + destruct (GetTranscodeHardwareAcceleration (config sm)).
      * intros H. subst hw. now contradiction Hmp4.
      * discriminate.
    + discriminate.
  - destruct (mimetype =? MimeWebmVideo).
    + cbn [orb]. split; [| discriminate].
      destruct (hwCodecWEBMCompatible (encoder sm)) as [hw |].
      * destruct (GetTranscodeHardwareAcceleration (config sm)).
        -- intros H. subst hw. now contradiction Hwebm.
        -- discriminate.
      * discriminate.
    + destruct (mimetype =? MimeMkvVideo); cbn [orb].
      * split; discriminate.
      * split; reflexivity.
Qed.

Section FurtherArgumentProperties.

Variable GetMaxResolution : string -> Z.
Variable ProbeAudioCodec : string -> string.
Variable MissingUnsupported : string.
Variable fmt_Sprint : float -> string.

Local Abbreviation makeStreamArgs' :=
  (makeStreamArgs GetMaxResolution ProbeAudioCodec MissingUnsupported
     fmt_Sprint).

(** X2: for a built-in format the codec that [FileGetCodec] selects is
    the one ffmpeg is told to use: the arguments of the request hold the
    codec flag followed by that codec (the probe not reporting the zero
    codec). *)
Theorem selected_codec_is_passed (sm : StreamManager) (o : TranscodeOptions) :
  In (StreamType o) builtinFormats ->
  hwCodecMP4Compatible (encoder sm) <> Some "" ->
  hwCodecWEBMCompatible (encoder sm) <> Some "" ->
  hasFlag "-c:v" (FileGetCodec sm (MimeType (StreamType o)))
    (makeStreamArgs' sm o) = true.
Proof.
  intros Hin Hmp4 Hwebm.
  assert (Hsup : supportedMime (MimeType (StreamType o)) = true).
  { destruct Hin as [H | [H | [H | []]]]; rewrite <- H; reflexivity. }
  assert (Hcodec : FileGetCodec sm (MimeType (StreamType o)) <> "").
  { intros Hz.
    apply (FileGetCodec_zero_iff_unsupported sm _ Hmp4 Hwebm) in Hz.
    rewrite Hz in Hsup. discriminate. }
  destruct (CodecInit_head _ Hcodec) as [tuning Htun].
  unfold makeStreamArgs, Args_Output. cbv zeta.
  set (codec := FileGetCodec sm (MimeType (StreamType o))) in *.
  assert (Hargs : exists rest,
             ArgsFunc (StreamType o) codec
               (videoFilter GetMaxResolution sm o)
               (videoOnly ProbeAudioCodec MissingUnsupported o)
             = "-c:v" :: codec :: rest).
  { destruct Hin as [H | [H | [H | []]]]; rewrite <- H;
      cbn [ArgsFunc StreamTypeMP4 StreamTypeWEBM StreamTypeMKV];
      unfold Args_Format, Args_VideoFilter, Args_SkipAudio, Args_AudioCodec;
      rewrite Htun;
      destruct (videoOnly ProbeAudioCodec MissingUnsupported o);
      cbn [app]; eexists; reflexivity. }
  destruct Hargs as [rest Hrest]. rewrite Hrest.
  rewrite <- !app_assoc. cbn [app].
  apply hasFlag_present.
Qed.

(** X3: a Matroska request is insensitive to everything that concerns
    re-encoding: neither the resolution override, nor the configured
    maximum resolution, nor the hardware acceleration switch, nor the
    probe, nor the scaling filter of the encoder changes its arguments. *)
Theorem matroska_args_insensitive
        (sm sm' : StreamManager) (o o' : TranscodeOptions) :
  StreamType o = StreamTypeMKV ->
  StreamType o' = StreamTypeMKV ->
  File o' = File o ->
  StartTime o' = StartTime o ->
  (forall a c, hwDeviceInit (encoder sm') a c = hwDeviceInit (encoder sm) a c) ->
  GetLiveTranscodeInputArgs (config sm')
  = GetLiveTranscodeInputArgs (config sm) ->
  GetLiveTranscodeOutputArgs (config sm')
  = GetLiveTranscodeOutputArgs (config sm) ->
  makeStreamArgs' sm' o' = makeStreamArgs' sm o.
Proof.
  intros Ht Ht' Hfile Hstart Hdev Hin Hout.
  unfold makeStreamArgs, videoOnly. cbv zeta.
  rewrite Ht, Ht', Hfile, Hstart, Hin, Hout, Hdev.
  cbn [ArgsFunc MimeType StreamTypeMKV].
  change (FileGetCodec sm' MimeMkvVideo) with VideoCodecCopy.
  change (FileGetCodec sm MimeMkvVideo) with VideoCodecCopy.
  reflexivity.
Qed.

(** X4: a resolution override acts exactly like configuring that value
    as the maximum streaming resolution and sending no override. *)
Theorem override_is_configured_maximum
        (sm : StreamManager) (o : TranscodeOptions) (r : string) :
  r <> "" ->
  makeStreamArgs' sm (withResolution o r)
  = makeStreamArgs' (withMaxStreamingTranscodeSize sm r) (withResolution o "").
Proof.
  intros Hr. apply String.eqb_neq in Hr.
  unfold makeStreamArgs, videoFilter, maxTranscodeSize. cbv zeta.
  cbn [withResolution withMaxStreamingTranscodeSize Resolution StreamType
       File StartTime config encoder GetMaxStreamingTranscodeSize
       GetLiveTranscodeInputArgs GetLiveTranscodeOutputArgs].
  rewrite Hr. reflexivity.
Qed.

(** X5: a start time that is not zero is handed to ffmpeg as a seek
    placed directly before the input, so that ffmpeg seeks in the input
    and not in the output. *)
Theorem seek_precedes_input (sm : StreamManager) (o : TranscodeOptions) :
  PrimFloat.eqb (StartTime o) 0%float = false ->
  exists pre post,
    makeStreamArgs' sm o
    = pre ++ ["-ss"; fmt_Sprint (StartTime o); "-i"; Path (File o)] ++ post.
Proof.
  intros Hnz. unfold makeStreamArgs, Args_Output, Args_Input, Args_Seek.
  cbv zeta. rewrite Hnz. cbn [negb].
  exists (hwDeviceInit (encoder sm)
            (Args_LogLevel ["-hide_banner"] LogLevelError)
            (FileGetCodec sm (MimeType (StreamType o)))
          ++ GetLiveTranscodeInputArgs (config sm)).
  exists (ArgsFunc (StreamType o) (FileGetCodec sm (MimeType (StreamType o)))
            (videoFilter GetMaxResolution sm o)
            (videoOnly ProbeAudioCodec MissingUnsupported o)
          ++ GetLiveTranscodeOutputArgs (config sm) ++ ["pipe:"]).
  rewrite <- !app_assoc. reflexivity.
Qed.

(** X6: a start time equal to zero, negative zero included, adds no
    seek: the arguments are those of a request from the beginning, and
    the input follows the extra input arguments directly. *)
Theorem no_seek_at_zero (sm : StreamManager) (o : TranscodeOptions) :
  PrimFloat.eqb (StartTime o) 0%float = true ->
  makeStreamArgs' sm o = makeStreamArgs' sm (withStartTime o 0%float)
  /\ exists post,
      makeStreamArgs' sm o
      = hwDeviceInit (encoder sm) ["-hide_banner"; "-v"; "error"]
          (FileGetCodec sm (MimeType (StreamType o)))
        ++ GetLiveTranscodeInputArgs (config sm)
        ++ ["-i"; Path (File o)] ++ post.
Proof.
  intros Hz. split.
  - unfold makeStreamArgs. cbv zeta.
    cbn [withStartTime StartTime StreamType File Resolution].
    rewrite Hz. reflexivity.
  - unfold makeStreamArgs, Args_Output, Args_Input. cbv zeta.
    rewrite Hz. cbn [negb].
    exists (ArgsFunc (StreamType o) (FileGetCodec sm (MimeType (StreamType o)))
              (videoFilter GetMaxResolution sm o)
              (videoOnly ProbeAudioCodec MissingUnsupported o)
            ++ GetLiveTranscodeOutputArgs (config sm) ++ ["pipe:"]).
    rewrite <- !app_assoc. reflexivity.
Qed.

(** X7: the arguments of a request for a built-in format end with the
    muxer flag of the container that belongs to the MIME type of the
    response, the configured extra output arguments, and the pipe as
    output, in this order. *)
Theorem args_end_with_container_and_pipe
        (sm : StreamManager) (o : TranscodeOptions) :
  In (StreamType o) builtinFormats ->
  exists pre container,
    makeStreamArgs' sm o
    = pre ++ ["-f"; container]
      ++ GetLiveTranscodeOutputArgs (config sm) ++ ["pipe:"]
    /\ In (MimeType (StreamType o), container)
         [(MimeMp4Video, FormatMP4); (MimeWebmVideo, FormatWebm);
          (MimeMkvVideo, FormatMatroska)].
Proof.
  intros Hin.
  assert (Hfmt : exists body container,
             (forall c f v,
                 ArgsFunc (StreamType o) c f v = body c f v ++ ["-f"; container])
             /\ In (MimeType (StreamType o), container)
                  [(MimeMp4Video, FormatMP4); (MimeWebmVideo, FormatWebm);
                   (MimeMkvVideo, FormatMatroska)]).
  { destruct Hin as [H | [H | [H | []]]]; rewrite <- H.
    - exists (fun (c : VideoCodec) (f : VideoFilter) (v : bool) =>
                let args := CodecInit c in
                let args := args ++ ["-movflags"; "frag_keyframe+empty_moov"] in
                let args := Args_VideoFilter args f in
                if v then Args_SkipAudio args else args ++ ["-ac"; "2"]).
      exists FormatMP4. split; [reflexivity | left; reflexivity].
    - exists (fun (c : VideoCodec) (f : VideoFilter) (v : bool) =>
                let args := CodecInit c in
                let args := Args_VideoFilter args f in
                if v then Args_SkipAudio args else args ++ ["-ac"; "2"]).
      exists FormatWebm. split; [reflexivity | right; left; reflexivity].
    - exists (fun (c : VideoCodec) (f : VideoFilter) (v : bool) =>
                let args := CodecInit c in
                if v then Args_SkipAudio args
                else Args_AudioCodec args AudioCodecLibOpus
                       ++ ["-b:a"; "96k"; "-vbr"; "on"; "-ac"; "2"]).
      exists FormatMatroska.
      split; [reflexivity | right; right; left; reflexivity]. }
  destruct Hfmt as (body & container & Hbody & Hpair).
  unfold makeStreamArgs, Args_Output. cbv zeta.
  rewrite Hbody.
  match goal with
  | |- exists _ _, ((?h ++ ?b ++ _) ++ _) ++ _ = _ /\ _ => exists (h ++ b)
  end.
  exists container. split; [| exact Hpair].
  now rewrite <- !app_assoc.
Qed.

End FurtherArgumentProperties.

(* ================================================================= *)
(** ** Further properties of the serving path                         *)
(* ================================================================= *)

Lemma processCalls_app (t1 t2 : list Event) :
  processCalls (t1 ++ t2) = processCalls t1 ++ processCalls t2.
Proof. apply filter_app. Qed.

Lemma spawned_app (t1 t2 : list Event) :
  spawned (t1 ++ t2) = spawned t1 ++ spawned t2.
Proof.
  induction t1 as [| e t1 IH]; [reflexivity |].
  destruct e; cbn; now rewrite ?IH.
Qed.

Lemma locks_app (t1 t2 : list Event) :
  locks (t1 ++ t2) = locks t1 ++ locks t2.
Proof.
  induction t1 as [| e t1 IH]; [reflexivity |].
  destruct e; cbn; now rewrite ?IH.
Qed.

(** The handler calls neither the command nor the lock manager and
    spawns nothing. *)
Lemma handler_only_responds (mimeType : string) (p : Process) (w : Client) :
  processCalls (trace (handler mimeType p w)) = []
  /\ spawned (trace (handler mimeType p w)) = []
  /\ locks (trace (handler mimeType p w)) = [].
Proof.
  rewrite handler_trace.
  destruct (io_Copy_trace w (stdoutChunks p) (stdoutErr p) 0) as [k Hk].
  rewrite Hk.
  set (l := firstn k (filter (fun d => negb (d =? "")) (stdoutChunks p))).
  assert (Hw : processCalls (map EvWrite l) = []
               /\ spawned (map EvWrite l) = [] /\ locks (map EvWrite l) = []).
  { unfold processCalls. induction l as [| d l IH]; cbn; auto. }
  destruct Hw as (Hw1 & Hw2 & Hw3).
  assert (Hc : forall r, processCalls (copyLog r) = []
                         /\ spawned (copyLog r) = [] /\ locks (copyLog r) = []).
  { intros [e |]; cbn; [destruct (errors_Is_errno e EPIPE) |]; cbn; auto. }
  destruct (Hc (fst (io_Copy w 0 (stdoutChunks p) (stdoutErr p))))
    as (Hc1 & Hc2 & Hc3).
  rewrite !processCalls_app, !spawned_app, !locks_app.
  rewrite Hw1, Hw2, Hw3, Hc1, Hc2, Hc3. cbn. auto.
Qed.

(** [io.Copy] stops at the first write that fails. *)
Lemma io_Copy_stops (c : Client) (k : nat) (e : error)
      (chunks : list string) (rd : option error) :
  writeErr c k = Some e ->
  forall n, (n <= k)%nat ->
    (length (written (trace (io_Copy c n chunks rd))) <= S k - n)%nat.
Proof.
  intros Hk. induction chunks as [| d chunks IH]; intros n Hn.
  - cbn -[Nat.sub]. lia.
  - cbn [io_Copy]. destruct (d =? "").
    + apply IH. exact Hn.
    + destruct (writeErr c n) as [ew |] eqn:Hw.
      * cbn -[Nat.sub]. lia.
      * assert (Hlt : (S n <= k)%nat).
        { destruct (Nat.eq_dec n k) as [-> | Hne]; [congruence | lia]. }
        specialize (IH (S n) Hlt).
        unfold trace, bind, emit in *.
        destruct (io_Copy c (S n) chunks rd) as [r t].
        cbn -[Nat.sub] in *. lia.
Qed.

(** When [io.Copy] returns no error every chunk was written and the
    reading ended at the end of the stream. *)
Lemma io_Copy_nil (c : Client) (chunks : list string) (rd : option error) :
  forall n,
    fst (io_Copy c n chunks rd) = None ->
    trace (io_Copy c n chunks rd)
    = map EvWrite (filter (fun d => negb (d =? "")) chunks)
    /\ rd = None.
Proof.
  induction chunks as [| d chunks IH]; intros n Hnil.
  - cbn in *. auto.
  - cbn [io_Copy filter] in *. destruct (d =? ""); cbn [negb].
    + apply IH. exact Hnil.
    + destruct (writeErr c n) as [ew |].
      * cbn in Hnil. discriminate.
      * unfold trace, bind, emit in *.
        destruct (io_Copy c (S n) chunks rd) as [r t] eqn:Hio.
        cbn in *. subst r.
        specialize (IH (S n)). rewrite Hio in IH.
        destruct (IH eq_refl) as (Ht & Hrd).
        cbn in Ht. now rewrite Ht.
Qed.

(** X8: once a write on the response has failed the handler writes
    nothing more: when the write number [k] fails, at most [k + 1] writes
    were attempted. *)
Theorem nothing_written_after_failed_write
        (mimeType : string) (p : Process) (w : Client) (k : nat) (e : error) :
  writeErr w k = Some e ->
  (length (written (trace (handler mimeType p w))) <= S k)%nat.
Proof.
  intros Hk. rewrite handler_trace.
  destruct (copyLog_quiet (fst (io_Copy w 0 (stdoutChunks p) (stdoutErr p))))
    as (_ & _ & Hw & _).
  rewrite !written_app, Hw. cbn [written app]. rewrite app_nil_r.
  pose proof (io_Copy_stops w k e (stdoutChunks p) (stdoutErr p) Hk 0
                (Nat.le_0_l k)) as H.
  lia.
Qed.

(** X9: a handler that logs nothing has either delivered every chunk up
    to the end of the stream, or lost its client to a broken pipe. *)
Theorem silent_handler_delivered_or_disconnected
        (mimeType : string) (p : Process) (w : Client) :
  logged (trace (handler mimeType p w)) = [] ->
  (written (trace (handler mimeType p w)) = nonEmptyChunks p
   /\ stdoutErr p = None)
  \/ (exists e,
         fst (io_Copy w 0 (stdoutChunks p) (stdoutErr p)) = Some e
         /\ errors_Is_errno e EPIPE = true).
Proof.
  rewrite handler_trace. intros Hsilent.
  destruct (fst (io_Copy w 0 (stdoutChunks p) (stdoutErr p)))
    as [e |] eqn:Hres.
  - right. exists e. split; [reflexivity |].
    destruct (io_Copy_trace w (stdoutChunks p) (stdoutErr p) 0) as [k Hk].
    rewrite Hk, !logged_app, logged_writes in Hsilent.
    cbn in Hsilent.
    destruct (errors_Is_errno e EPIPE); [reflexivity | discriminate].
  - left.
    destruct (io_Copy_nil w (stdoutChunks p) (stdoutErr p) 0 Hres)
      as (Ht & Hrd).
    split; [| exact Hrd].
    rewrite Ht, !written_app, written_writes. cbn.
    now rewrite app_nil_r.
Qed.

(** X10: the goroutine of the standard error always reads it to the end
    before it waits for the command, and then logs at most once; it logs
    nothing exactly when the standard error was empty and the command
    ended without error or with an exit error. *)
Theorem stderrDrain_silent_iff (p : Process) (cmd : Cmd) :
  (exists rest,
      trace (stderrDrain p cmd) = EvReadAllStderr :: EvWait :: rest
      /\ (length rest <= 1)%nat)
  /\ (logged (trace (stderrDrain p cmd)) = []
      <-> stderrText p = ""
          /\ (waitErr p = None
              \/ exists e, waitErr p = Some e
                           /\ errors_As_ExitError e = true)).
Proof.
  unfold stderrDrain.
  destruct (stderrText p =? "") eqn:Htext; cbn [negb].
  - apply String.eqb_eq in Htext.
    destruct (waitErr p) as [e |] eqn:Hwait.
    + destruct (errors_As_ExitError e) eqn:Hexit; cbn.
      * split; [eexists; split; [reflexivity | cbn; lia] |].
        split; [intros _ | reflexivity].
        split; [exact Htext | right; exists e; auto].
      * split; [eexists; split; [reflexivity | cbn; lia] |].
        split; [discriminate |].
        intros (_ & [Hn | (e' & He' & Hx)]); [discriminate |].
        injection He' as <-. congruence.
    + cbn. split; [eexists; split; [reflexivity | cbn; lia] |].
      split; [intros _ | reflexivity].
      split; [exact Htext | now left].
  - apply String.eqb_neq in Htext. cbn.
    split; [eexists; split; [reflexivity | cbn; lia] |].
    split; [discriminate |].
    intros (Hempty & _). contradiction.
Qed.

Section FurtherServingProperties.

Variable GetMaxResolution : string -> Z.
Variable ProbeAudioCodec : string -> string.
Variable MissingUnsupported : string.
Variable fmt_Sprint : float -> string.

Local Abbreviation makeStreamArgs' :=
  (makeStreamArgs GetMaxResolution ProbeAudioCodec MissingUnsupported
     fmt_Sprint).
Local Abbreviation Serve :=
  (ServeTranscode GetMaxResolution ProbeAudioCodec MissingUnsupported
     fmt_Sprint).
Local Abbreviation Serve_started :=
  (Serve_trace_started GetMaxResolution ProbeAudioCodec MissingUnsupported
     fmt_Sprint).

(** The whole trace of a request, by the step that failed. *)
Lemma Serve_trace_stdout_failed sm p w o err :
  stdoutPipeErr p = Some err ->
  trace (Serve sm p w o)
  = [EvReadLock (Path (File o)); EvStdoutPipe;
     EvLog LevelError
       ("[transcode] ffmpeg stdout not available: " ++ Error err);
     EvLog LevelError
       ("[transcode] error transcoding video file: " ++ Error err);
     EvWriteHeader StatusBadRequest; EvWrite (Error err)]
    ++ bodyWriteLog w.
Proof.
  intros H1. unfold ServeTranscode, getTranscodeStream, bodyWriteLog.
  rewrite H1. destruct (writeErr w 0); reflexivity.
Qed.

Lemma Serve_trace_stderr_failed sm p w o err :
  stdoutPipeErr p = None -> stderrPipeErr p = Some err ->
  trace (Serve sm p w o)
  = [EvReadLock (Path (File o)); EvStdoutPipe; EvStderrPipe;
     EvLog LevelError
       ("[transcode] ffmpeg stderr not available: " ++ Error err);
     EvLog LevelError
       ("[transcode] error transcoding video file: " ++ Error err);
     EvWriteHeader StatusBadRequest; EvWrite (Error err)]
    ++ bodyWriteLog w.
Proof.
  intros H1 H2. unfold ServeTranscode, getTranscodeStream, bodyWriteLog.
  rewrite H1, H2. destruct (writeErr w 0); reflexivity.
Qed.

Lemma Serve_trace_start_failed sm p w o err :
  stdoutPipeErr p = None -> stderrPipeErr p = None -> startErr p = Some err ->
  trace (Serve sm p w o)
  = [EvReadLock (Path (File o)); EvStdoutPipe; EvStderrPipe; EvStart;
     EvLog LevelError
       ("[transcode] error transcoding video file: " ++ Error err);
     EvWriteHeader StatusBadRequest; EvWrite (Error err)]
    ++ bodyWriteLog w.
Proof.
  intros H1 H2 H3. unfold ServeTranscode, getTranscodeStream, bodyWriteLog.
  rewrite H1, H2, H3. destruct (writeErr w 0); reflexivity.
Qed.

Lemma bodyWriteLog_quiet (w : Client) :
  processCalls (bodyWriteLog w) = [] /\ spawned (bodyWriteLog w) = []
  /\ locks (bodyWriteLog w) = [].
Proof. unfold bodyWriteLog. destruct (writeErr w 0); cbn; auto. Qed.

(** X11: the three steps on the command are taken in order and each at
    most once; the standard error pipe is asked for only after the
    standard output pipe was obtained, and ffmpeg is started only after
    both were. *)
Theorem process_steps_in_order
        (sm : StreamManager) (p : Process) (w : Client)
        (o : TranscodeOptions) :
  processCalls (trace (Serve sm p w o))
  = match stdoutPipeErr p with
    | Some _ => [EvStdoutPipe]
    | None =>
        match stderrPipeErr p with
        | Some _ => [EvStdoutPipe; EvStderrPipe]
        | None => [EvStdoutPipe; EvStderrPipe; EvStart]
        end
    end.
Proof.
  destruct (bodyWriteLog_quiet w) as (Hb & _).
  destruct (stdoutPipeErr p) as [e1 |] eqn:H1.
  - rewrite (Serve_trace_stdout_failed sm p w o e1 H1), processCalls_app, Hb.
    reflexivity.
  - destruct (stderrPipeErr p) as [e2 |] eqn:H2.
    + rewrite (Serve_trace_stderr_failed sm p w o e2 H1 H2),
        processCalls_app, Hb.
      reflexivity.
    + destruct (startErr p) as [e3 |] eqn:H3.
      * rewrite (Serve_trace_start_failed sm p w o e3 H1 H2 H3),
          processCalls_app, Hb.
        reflexivity.
      * rewrite (Serve_started sm p w o (conj H1 (conj H2 H3))),
          processCalls_app.
        destruct (handler_only_responds (MimeType (StreamType o)) p w)
          as (Hh & _).
        rewrite Hh. reflexivity.
Qed.

(** X12: a request spawns the goroutine that consumes the standard
    error exactly when ffmpeg started, once, for the command it attached;
    a request whose start failed leaves no goroutine behind. *)
Theorem goroutine_iff_started
        (sm : StreamManager) (p : Process) (w : Client)
        (o : TranscodeOptions) :
  (started p ->
   spawned (trace (Serve sm p w o))
   = [trace (stderrDrain p (Command (encoder sm) (makeStreamArgs' sm o)))]
   /\ attached (trace (Serve sm p w o))
      = [Command (encoder sm) (makeStreamArgs' sm o)])
  /\ (forall err, startFailed p err -> spawned (trace (Serve sm p w o)) = []).
Proof.
  split.
  - intros Hs. rewrite (Serve_started sm p w o Hs).
    destruct (handler_only_responds (MimeType (StreamType o)) p w)
      as (_ & Hh & _).
    rewrite spawned_app, Hh, attached_app.
    split; [reflexivity |].
    rewrite handler_trace.
    destruct (io_Copy_trace w (stdoutChunks p) (stdoutErr p) 0) as [k Hk].
    destruct (copyLog_quiet
                (fst (io_Copy w 0 (stdoutChunks p) (stdoutErr p))))
      as (_ & Hc & _).
    rewrite Hk, !attached_app, attached_writes, Hc. reflexivity.
  - destruct (bodyWriteLog_quiet w) as (_ & Hb & _).
    intros err [H1 | [(H1 & H2) | (H1 & H2 & H3)]].
    + rewrite (Serve_trace_stdout_failed sm p w o err H1), spawned_app, Hb.
      reflexivity.
    + rewrite (Serve_trace_stderr_failed sm p w o err H1 H2), spawned_app, Hb.
      reflexivity.
    + rewrite (Serve_trace_start_failed sm p w o err H1 H2 H3),
        spawned_app, Hb.
      reflexivity.
Qed.

(** X13: every request takes the read lock on the path of its file
    first, before it touches the command or the response, and takes it
    once, whether ffmpeg starts or not. *)
Theorem read_lock_first
        (sm : StreamManager) (p : Process) (w : Client)
        (o : TranscodeOptions) :
  (exists rest, trace (Serve sm p w o) = EvReadLock (Path (File o)) :: rest)
  /\ locks (trace (Serve sm p w o)) = [Path (File o)].
Proof.
  destruct (bodyWriteLog_quiet w) as (_ & _ & Hb).
  destruct (stdoutPipeErr p) as [e1 |] eqn:H1.
  - rewrite (Serve_trace_stdout_failed sm p w o e1 H1), locks_app, Hb.
    split; [eexists |]; reflexivity.
  - destruct (stderrPipeErr p) as [e2 |] eqn:H2.
    + rewrite (Serve_trace_stderr_failed sm p w o e2 H1 H2), locks_app, Hb.
      split; [eexists |]; reflexivity.
    + destruct (startErr p) as [e3 |] eqn:H3.
      * rewrite (Serve_trace_start_failed sm p w o e3 H1 H2 H3),
          locks_app, Hb.
        split; [eexists |]; reflexivity.
      * rewrite (Serve_started sm p w o (conj H1 (conj H2 H3))), locks_app.
        destruct (handler_only_responds (MimeType (StreamType o)) p w)
          as (_ & _ & Hh).
        rewrite Hh. split; [eexists |]; reflexivity.
Qed.

(** X14: a failing pipe is logged twice at error level, by
    [getTranscodeStream] and by [ServeTranscode]; a failing start is
    logged once; when the body of the error response cannot be written
    one warning follows, and nothing else changes. *)
Theorem start_failure_logging
        (sm : StreamManager) (p : Process) (w : Client)
        (o : TranscodeOptions) (err : error) :
  startFailed p err ->
  exists pipeLog,
    logged (trace (Serve sm p w o))
    = pipeLog
      ++ [(LevelError,
           ("[transcode] error transcoding video file: " ++ Error err)%string)]
      ++ logged (bodyWriteLog w)
    /\ (stdoutPipeErr p = Some err ->
        pipeLog = [(LevelError,
                    ("[transcode] ffmpeg stdout not available: "
                     ++ Error err)%string)])
    /\ (stdoutPipeErr p = None -> stderrPipeErr p = Some err ->
        pipeLog = [(LevelError,
                    ("[transcode] ffmpeg stderr not available: "
                     ++ Error err)%string)])
    /\ (stdoutPipeErr p = None -> stderrPipeErr p = None -> pipeLog = [])
    /\ (writeErr w 0 = None -> logged (bodyWriteLog w) = [])
    /\ (forall e, writeErr w 0 = Some e ->
          logged (bodyWriteLog w)
          = [(LevelWarn,
              ("[transcode] error writing response: " ++ Error e)%string)]).
Proof.
  assert (Hbody : (writeErr w 0 = None -> logged (bodyWriteLog w) = [])
                  /\ (forall e, writeErr w 0 = Some e ->
                        logged (bodyWriteLog w)
                        = [(LevelWarn,
                            ("[transcode] error writing response: "
                             ++ Error e)%string)])).
  { unfold bodyWriteLog. split.
    - intros H. now rewrite H.
    - intros e H. now rewrite H. }
  intros [H1 | [(H1 & H2) | (H1 & H2 & H3)]].
  - rewrite (Serve_trace_stdout_failed sm p w o err H1), logged_app.
    exists [(LevelError,
             ("[transcode] ffmpeg stdout not available: " ++ Error err)%string)].
    split; [reflexivity |].
    repeat split; try tauto; congruence.
  - rewrite (Serve_trace_stderr_failed sm p w o err H1 H2), logged_app.
    exists [(LevelError,
             ("[transcode] ffmpeg stderr not available: " ++ Error err)%string)].
    split; [reflexivity |].
    repeat split; try tauto; congruence.
  - rewrite (Serve_trace_start_failed sm p w o err H1 H2 H3), logged_app.
    exists []. split; [reflexivity |].
    repeat split; try tauto; congruence.
Qed.

End FurtherServingProperties.

(* ================================================================= *)
(** ** Properties of the owner of the stream manager                  *)
(* ================================================================= *)

Lemma liveAfter_app (n : nat) (t1 t2 : list MgrEvent) :
  liveAfter n (t1 ++ t2) = liveAfter (liveAfter n t1) t2.
Proof.
  revert n. induction t1 as [| e t1 IH]; intros n; [reflexivity |].
  destruct e; cbn; apply IH.
Qed.

Lemma peakLive_app (n : nat) (t1 t2 : list MgrEvent) :
  peakLive n (t1 ++ t2)
  = Nat.max (peakLive n t1) (peakLive (liveAfter n t1) t2).
Proof.
  revert n. induction t1 as [| e t1 IH]; intros n.
  - cbn. assert (H : (n <= peakLive n t2)%nat).
    { clear. revert n. induction t2 as [| e t2 IH]; intros n; [cbn; lia |].
      destruct e; cbn; try apply IH; lia. }
    lia.
  - destruct e; cbn; rewrite IH; lia.
Qed.

Lemma RefreshStreamManager_live (s : Manager) (d : string) :
  held (fst (RefreshStreamManager s d)) = 1%nat
  /\ liveAfter (held s) (snd (RefreshStreamManager s d)) = 1%nat
  /\ peakLive (held s) (snd (RefreshStreamManager s d)) = 1%nat.
Proof.
  unfold RefreshStreamManager, held.
  destruct (MgrStreamManager s) as [[dir sm] |]; cbn; auto.
Qed.

(** X15: however often the stream manager is refreshed, at no moment
    are two stream managers alive: the one held is shut down before its
    successor is made, and the manager holds exactly the managers that
    are alive. *)
Theorem refreshes_keep_one_stream_manager (s : Manager) (dirs : list string) :
  (peakLive (held s) (snd (refreshes s dirs)) <= 1)%nat
  /\ liveAfter (held s) (snd (refreshes s dirs)) = held (fst (refreshes s dirs))
  /\ (dirs <> [] ->
      exists sm, MgrStreamManager (fst (refreshes s dirs))
                 = Some (last dirs "", sm)).
Proof.
  revert s. induction dirs as [| d dirs IH]; intros s.
  - cbn. split; [unfold held; destruct (MgrStreamManager s); lia |].
    split; [reflexivity | congruence].
  - cbn [refreshes].
    destruct (RefreshStreamManager_live s d) as (Hh & Hl & Hp).
    destruct (RefreshStreamManager s d) as [s1 t1] eqn:Hr. cbn [fst snd] in *.
    specialize (IH s1). destruct (refreshes s1 dirs) as [s2 t2] eqn:Hrs.
    cbn [fst snd] in *. destruct IH as (IHp & IHl & IHd).
    rewrite peakLive_app, liveAfter_app, Hl, Hp. rewrite Hh in IHp, IHl.
    split; [lia |]. split; [exact IHl |].
    intros _. destruct dirs as [| d' dirs'].
    + cbn in Hrs. injection Hrs as <- <-.
      unfold RefreshStreamManager in Hr. injection Hr as <- _.
      cbn. eexists. reflexivity.
    + destruct (IHd ltac:(discriminate)) as [sm Hsm].
      exists sm. exact Hsm.
Qed.

(** X16: the shutdown of the manager stops the stream manager it holds
    before it closes the database, leaves no stream manager alive, and
    exits exactly once; the exit code is zero only when the code asked
    for was zero and the database closed without error. *)
Theorem ManagerShutdown_exit
        (s : Manager) (closeErr : option error) (code : Z) :
  (exists c,
      exits (snd (ManagerShutdown s closeErr code)) = [c]
      /\ (c = 0%Z <-> code = 0%Z /\ closeErr = None)
      /\ (closeErr = None \/ code <> 0%Z -> c = code)
      /\ last (snd (ManagerShutdown s closeErr code)) MgrStopCPUProfile
         = MgrExit c)
  /\ liveAfter (held s) (snd (ManagerShutdown s closeErr code)) = 0%nat
  /\ held (fst (ManagerShutdown s closeErr code)) = 0%nat
  /\ (forall dir sm,
        MgrStreamManager s = Some (dir, sm) ->
        exists after,
          snd (ManagerShutdown s closeErr code)
          = [MgrStopCPUProfile; MgrStreamShutdown dir; MgrDatabaseClose]
            ++ after).
Proof.
  unfold ManagerShutdown, held. cbn [fst snd].
  split; [| split; [| split]].
  - destruct closeErr as [e |].
    + destruct (code =? 0)%Z eqn:Hc.
      * apply Z.eqb_eq in Hc. exists 1%Z.
        destruct (MgrStreamManager s) as [[dir sm] |]; cbn;
          (split; [reflexivity |]);
          (split; [split; [discriminate | intros (_ & H); discriminate] |]);
          (split; [intros [H | H]; [discriminate | contradiction] |]);
          reflexivity.
      * apply Z.eqb_neq in Hc. exists code.
        destruct (MgrStreamManager s) as [[dir sm] |]; cbn;
          (split; [reflexivity |]);
          (split; [split; [contradiction | intros (H & _); contradiction] |]);
          (split; [reflexivity |]);
          reflexivity.
    + exists code.
      destruct (MgrStreamManager s) as [[dir sm] |]; cbn;
        (split; [reflexivity |]);
        (split; [tauto |]);
        (split; [reflexivity |]);
        reflexivity.
  - destruct (MgrStreamManager s) as [[dir sm] |], closeErr as [e |];
      cbn; try destruct (code =? 0)%Z; reflexivity.
  - reflexivity.
  - intros dir sm Hs. rewrite Hs. cbn [app]. eexists. reflexivity.
Qed.

(* ================================================================= *)
(** ** The further properties on the sample collaborators             *)
(* ================================================================= *)

(** Ogg is not a container of the stream manager: the zero codec, also
    with a hardware encoder and acceleration on. *)
Lemma FileGetCodec_zero_iff_unsupported_witness :
  FileGetCodec (Sample.sm Sample.nvidia true "FULL_HD") "video/ogg" = "".
Proof.
  apply (proj2 (FileGetCodec_zero_iff_unsupported
                  (Sample.sm Sample.nvidia true "FULL_HD") "video/ogg"
                  ltac:(discriminate) ltac:(discriminate))).
  reflexivity.
Defined.

(** MP4 on the NVIDIA encoder: ffmpeg is told to use h264_nvenc. *)
Lemma selected_codec_is_passed_witness :
  hasFlag "-c:v" "h264_nvenc"
    (makeStreamArgs Sample.GetMaxResolution Sample.ProbeAudioCodec
       Sample.MissingUnsupported Sample.fmt_Sprint
       (Sample.sm Sample.nvidia true "FULL_HD")
       (Sample.opts StreamTypeMP4 "aac" "")) = true.
Proof.
  exact (selected_codec_is_passed Sample.GetMaxResolution
           Sample.ProbeAudioCodec Sample.MissingUnsupported Sample.fmt_Sprint
           (Sample.sm Sample.nvidia true "FULL_HD")
           (Sample.opts StreamTypeMP4 "aac" "")
           (or_introl eq_refl) ltac:(discriminate) ltac:(discriminate)).
Defined.

(** The same Matroska request on a software encoder capped at 240 lines
    and on an accelerated NVIDIA encoder with a 4K override. *)
Lemma matroska_args_insensitive_witness :
  makeStreamArgs Sample.GetMaxResolution Sample.ProbeAudioCodec
    Sample.MissingUnsupported Sample.fmt_Sprint
    (Sample.sm Sample.nvidia true "FOUR_K")
    (Sample.opts StreamTypeMKV "aac" "FOUR_K")
  = makeStreamArgs Sample.GetMaxResolution Sample.ProbeAudioCodec
      Sample.MissingUnsupported Sample.fmt_Sprint
      (Sample.sm Sample.software false "LOW")
      (Sample.opts StreamTypeMKV "aac" "").
Proof.
  apply (matroska_args_insensitive Sample.GetMaxResolution
           Sample.ProbeAudioCodec Sample.MissingUnsupported Sample.fmt_Sprint
           (Sample.sm Sample.software false "LOW")
           (Sample.sm Sample.nvidia true "FOUR_K")
           (Sample.opts StreamTypeMKV "aac" "")
           (Sample.opts StreamTypeMKV "aac" "FOUR_K"));
    reflexivity.
Defined.

(** An override of 480 lines on a configuration of 1080 lines. *)
Lemma override_is_configured_maximum_witness :
  makeStreamArgs Sample.GetMaxResolution Sample.ProbeAudioCodec
    Sample.MissingUnsupported Sample.fmt_Sprint
    (Sample.sm Sample.software false "FULL_HD")
    (withResolution (Sample.opts StreamTypeMP4 "aac" "") "STANDARD")
  = makeStreamArgs Sample.GetMaxResolution Sample.ProbeAudioCodec
      Sample.MissingUnsupported Sample.fmt_Sprint
      (withMaxStreamingTranscodeSize
         (Sample.sm Sample.software false "FULL_HD") "STANDARD")
      (withResolution (Sample.opts StreamTypeMP4 "aac" "") "").
Proof.
  exact (override_is_configured_maximum Sample.GetMaxResolution
           Sample.ProbeAudioCodec Sample.MissingUnsupported Sample.fmt_Sprint
           (Sample.sm Sample.software false "FULL_HD")
           (Sample.opts StreamTypeMP4 "aac" "") "STANDARD"
           ltac:(discriminate)).
Defined.

(** A request that starts thirty seconds in. *)
Lemma seek_precedes_input_witness :
  exists pre post,
    makeStreamArgs Sample.GetMaxResolution Sample.ProbeAudioCodec
      Sample.MissingUnsupported Sample.fmt_Sprint
      (Sample.sm Sample.software false "FULL_HD")
      (withStartTime (Sample.opts StreamTypeWEBM "aac" "") 30%float)
    = pre ++ ["-ss"; "30"; "-i"; "/media/a.mkv"] ++ post.
Proof.
  exact (seek_precedes_input Sample.GetMaxResolution
           Sample.ProbeAudioCodec Sample.MissingUnsupported Sample.fmt_Sprint
           (Sample.sm Sample.software false "FULL_HD")
           (withStartTime (Sample.opts StreamTypeWEBM "aac" "") 30%float)
           eq_refl).
Defined.

(** A start time of negative zero is a request from the beginning. *)
Lemma no_seek_at_zero_witness :
  makeStreamArgs Sample.GetMaxResolution Sample.ProbeAudioCodec
    Sample.MissingUnsupported Sample.fmt_Sprint
    (Sample.sm Sample.software false "FULL_HD")
    (withStartTime (Sample.opts StreamTypeWEBM "aac" "") neg_zero)
  = makeStreamArgs Sample.GetMaxResolution Sample.ProbeAudioCodec
      Sample.MissingUnsupported Sample.fmt_Sprint
      (Sample.sm Sample.software false "FULL_HD")
      (Sample.opts StreamTypeWEBM "aac" "").
Proof.
  exact (proj1 (no_seek_at_zero Sample.GetMaxResolution
                  Sample.ProbeAudioCodec Sample.MissingUnsupported
                  Sample.fmt_Sprint
                  (Sample.sm Sample.software false "FULL_HD")
                  (withStartTime (Sample.opts StreamTypeWEBM "aac" "")
                     neg_zero)
                  eq_refl)).
Defined.

(** A WebM request ends with the webm muxer and the pipe. *)
Lemma args_end_with_container_and_pipe_witness :
  exists pre container,
    makeStreamArgs Sample.GetMaxResolution Sample.ProbeAudioCodec
      Sample.MissingUnsupported Sample.fmt_Sprint
      (Sample.sm Sample.software false "FULL_HD")
      (Sample.opts StreamTypeWEBM "aac" "")
    = pre ++ ["-f"; container] ++ [] ++ ["pipe:"]
    /\ In ("video/webm", container)
         [(MimeMp4Video, FormatMP4); (MimeWebmVideo, FormatWebm);
          (MimeMkvVideo, FormatMatroska)].
Proof.
  exact (args_end_with_container_and_pipe Sample.GetMaxResolution
           Sample.ProbeAudioCodec Sample.MissingUnsupported Sample.fmt_Sprint
           (Sample.sm Sample.software false "FULL_HD")
           (Sample.opts StreamTypeWEBM "aac" "")
           (or_intror (or_introl eq_refl))).
Defined.

(** The client disconnects during the second write: two writes at
    most. *)
Lemma nothing_written_after_failed_write_witness :
  (length (written (trace (handler "video/mp4" Sample.killedQuiet
                             Sample.disconnects))) <= 2)%nat.
Proof.
  exact (nothing_written_after_failed_write "video/mp4" Sample.killedQuiet
           Sample.disconnects 1
           (ErrWrap "write tcp" (ErrErrno EPIPE "broken pipe")) eq_refl).
Defined.

(** A stream that ran to its end without a log entry. *)
Lemma silent_handler_delivered_or_disconnected_witness :
  (written (trace (handler "video/mp4" Sample.killedQuiet Sample.noWriteErr))
   = ["ab"; "cd"]
   /\ stdoutErr Sample.killedQuiet = None)
  \/ (exists e,
         fst (io_Copy Sample.noWriteErr 0 (stdoutChunks Sample.killedQuiet)
                (stdoutErr Sample.killedQuiet)) = Some e
         /\ errors_Is_errno e EPIPE = true).
Proof.
  exact (silent_handler_delivered_or_disconnected "video/mp4"
           Sample.killedQuiet Sample.noWriteErr eq_refl).
Defined.

(** The binary is missing: one error entry, no entry for a pipe. *)
Lemma start_failure_logging_witness :
  exists pipeLog,
    logged (trace (Sample.serve Sample.notStarted Sample.noWriteErr
                     StreamTypeMP4))
    = pipeLog
      ++ [(LevelError,
           "[transcode] error transcoding video file: fork/exec ffmpeg: no such file or directory")]
      ++ []
    /\ pipeLog = [].
Proof.
  destruct (start_failure_logging Sample.GetMaxResolution
              Sample.ProbeAudioCodec Sample.MissingUnsupported
              Sample.fmt_Sprint
              (Sample.sm Sample.software false "FULL_HD")
              Sample.notStarted Sample.noWriteErr
              (Sample.opts StreamTypeMP4 "aac" "")
              (ErrWrap "fork/exec ffmpeg"
                 (ErrErrno 2 "no such file or directory"))
              (or_intror (or_intror (conj eq_refl (conj eq_refl eq_refl)))))
    as (pipeLog & Hlog & _ & _ & Hnone & _).
  exists pipeLog. split; [exact Hlog | exact (Hnone eq_refl eq_refl)].
Defined.
